(** * vite-plugin-mkcert: the provisioning and regeneration engine

    A shallow embedding of the [Mkcert] class (the orchestrator of
    [packages/plugin/src/mkcert/index.ts]) and of the statements its
    specification makes about it.

    The class is asynchronous and effectful: it reads and writes files,
    spawns the external [mkcert] binary, downloads it, logs, and keeps a
    persisted configuration.  Every [async] method is embedded as a function
    from a [World] to a settled promise ([Resolve] or [Reject]) and the
    world the method leaves behind; the calls to collaborators are recorded,
    in order, in the world's [trace]. *)

From stdpp Require Import base gmap strings list.

Open Scope string_scope.
Open Scope list_scope.
Open Scope nat_scope.

(** ** JavaScript values used by the class *)

Module JS.

(** A value of type [string | undefined] interpolated in a template
    literal: [`${v}`]. *)
Definition interpolate (v : option string) : string :=
  match v with
  | Some s => s
  | None => "undefined"
  end.

(** Truthiness of a [string | undefined]: [undefined] and the empty string
    are falsy.  The result carries the string when it is truthy. *)
Definition truthy (v : option string) : option string :=
  match v with
  | Some s => if decide (s = EmptyString) then None else Some s
  | None => None
  end.

(** [a || b] for [a : string | undefined] and [b : string]. *)
Definition or_else (a : option string) (b : string) : string :=
  match truthy a with
  | Some s => s
  | None => b
  end.

(** Truthiness of a [boolean | undefined]. *)
Definition truthy_bool (v : option bool) : bool :=
  match v with
  | Some b => b
  | None => false
  end.

(** [Array.prototype.join]. *)
Definition join (sep : string) (l : list string) : string :=
  String.concat sep l.

(** A [string[] | undefined] interpolated in a template literal: an array
    is joined with commas. *)
Definition interpolate_array (v : option (list string)) : string :=
  match v with
  | Some l => join "," l
  | None => "undefined"
  end.

(** The line feed of a ['\n'] escape. *)
Definition nl : string := String (Ascii.ascii_of_nat 10) EmptyString.

(** The double quote inside a single-quoted literal. *)
Definition dq : string := String (Ascii.ascii_of_nat 34) EmptyString.

End JS.

(** ** Data *)

(** [RecordHash]: the content hashes of the key and the certificate file. *)
Record RecordHash := mkRecordHash {
  hash_key : string;
  hash_cert : string
}.

(** [RecordMate]: what [record.update] receives, [{ hosts, hash }]. *)
Record RecordMate := mkRecordMate {
  rec_hosts : list string;
  rec_hash : RecordHash
}.

(** The state held by [Config]: the version of the installed binary and the
    certificate record. *)
Record Config := mkConfig {
  cfg_version : option string;
  cfg_record : option RecordMate
}.

(** What [getCertificate] returns, [{ key, cert }]. *)
Record Certificate := mkCertificate {
  key : string;
  cert : string
}.

(** What a source provider answers. *)
Record SourceInfo := mkSourceInfo {
  version : string;
  downloadUrl : string
}.

(** What a promise is rejected with. *)
Inductive Error :=
| ExecError (cmd : string)
| ReadError (path : string)
| DownloadError (url dist : string)
| SourceError (reason : string).

(** A settled promise. *)
Inductive Result (A : Type) :=
| Resolve (a : A)
| Reject (e : Error).
Arguments Resolve {A} a.
Arguments Reject {A} e.

(** [BaseSource]: any object with an async [getSourceInfo].  The promise it
    returns resolves with the information or with nothing, or is rejected;
    the object may be the caller's own. *)
Record BaseSource := mkBaseSource {
  getSourceInfo : Result (option SourceInfo)
}.

(** [SourceType = 'github' | 'coding' | BaseSource]. *)
Inductive SourceType :=
| github
| coding
| custom (s : BaseSource).

(** The result of [VersionManger.compare]. *)
Record VersionInfo := mkVersionInfo {
  currentVersion : option string;
  nextVersion : string;
  breakingChange : bool;
  shouldUpdate : bool
}.

(** [MkcertProps] without the logger, which is the world's trace. *)
Record MkcertOptions := mkMkcertOptions {
  opt_autoUpgrade : option bool;
  opt_source : option SourceType;
  opt_mkcertPath : option string
}.

(** The fields of a [Mkcert] object.  [config] is mutable and lives in the
    world; [logger] is the trace. *)
Record Mkcert := mkMkcert {
  autoUpgrade : option bool;
  mkcertLocalPath : option string;
  source : BaseSource;
  mkcertSavedPath : string;
  sourceType : SourceType
}.

(** ** Worlds, events and promises *)

(** A call to a collaborator, as the class makes it. *)
Inductive Event :=
| LoggerError (msg : string)
| LoggerInfo (msg : string)
| Debug (format : string) (args : list (option string))
| EnsureDirExist (path : string)
| Exec (cmd : string)
| Download (url dist : string)
| GetSourceInfo.

#[global] Instance Event_eq_dec : EqDecision Event.
Proof. solve_decision. Defined.

Record World := mkWorld {
  files : gmap string string;
  config : Config;
  trace : list Event
}.

(** An [async] function body. *)
Definition Async (A : Type) : Type := World -> Result A * World.

Definition ret {A} (a : A) : Async A := fun w => (Resolve a, w).

(** [await]: a rejected promise ends the function, the world stays as the
    rejected call left it. *)
Definition bind {A B} (c : Async A) (k : A -> Async B) : Async B :=
  fun w =>
    match c w with
    | (Resolve a, w') => k a w'
    | (Reject e, w') => (Reject e, w')
    end.

#[global] Instance Async_ret : MRet Async := @ret.
#[global] Instance Async_bind : MBind Async := fun A B k c => bind c k.

(** The world after one more call to a collaborator. *)
Definition logged (e : Event) (w : World) : World :=
  mkWorld (files w) (config w) (trace w ++ [e]).

Definition emit (e : Event) : Async unit :=
  fun w => (Resolve tt, logged e w).

Definition set_files (fs : gmap string string) (w : World) : World :=
  mkWorld fs (config w) (trace w).

Definition set_config (c : Config) (w : World) : World :=
  mkWorld (files w) c (trace w).

(** How often the external binary was spawned in a trace. *)
Definition is_exec (e : Event) : bool :=
  match e with
  | Exec _ => true
  | _ => false
  end.

Definition is_download (e : Event) : bool :=
  match e with
  | Download _ _ => true
  | _ => false
  end.

Definition is_source_call (e : Event) : bool :=
  match e with
  | GetSourceInfo => true
  | _ => false
  end.

Definition regenerations (t : list Event) : nat := length (filter is_exec t).

(** How often the source was asked in a trace. *)
Definition source_calls (t : list Event) : nat := length (filter is_source_call t).

Definition downloads (t : list Event) : nat := length (filter is_download t).

(** ** Collaborators

    The parts of the program that are given only by their interface: the
    utilities of [lib/util], the downloader, the built-in sources, the
    subprocess and [chalk]. *)

Inductive Outcome := Resolved | Rejected.

Class Collaborators := {
  (** [resolvePath] of [lib/util]. *)
  resolvePath : string -> string;
  (** [process.platform]. *)
  platform : string;
  (** What running a shell command does to the files, and whether the
      process succeeds. *)
  exec_effect : string -> gmap string string -> Outcome * gmap string string;
  (** What [Downloader.download(url, dist)] does to the files, and whether
      it succeeds. *)
  download_effect :
    string -> string -> gmap string string -> Outcome * gmap string string;
  (** The digest [getHash] takes of a file's content; the file may be
      missing. *)
  hashOf : option string -> string;
  (** [GithubSource.create()] and [CodingSource.create()]. *)
  GithubSource_create : BaseSource;
  CodingSource_create : BaseSource;
  (** [chalk.red] and [prettyLog]. *)
  chalk_red : string -> string;
  prettyLog : option RecordHash -> string
}.

(** [VersionManger.compare], which reads the installed version from the
    configuration. *)
Class VersionPolicy := {
  compare : Config -> string -> VersionInfo
}.

(** ** Utilities and persisted state *)

Section Embedding.

Context `{Collaborators} `{VersionPolicy}.

(** Modelled from the spec: [exists] of [lib/util], the check that a file
    exists at a path. *)
Definition exists_ (path : string) : Async bool :=
  fun w => (Resolve (bool_decide (is_Some (files w !! path))), w).

(** [fs.promises.readFile]: rejects when the file is missing. *)
Definition readFile (path : string) : Async string :=
  fun w =>
    match files w !! path with
    | Some content => (Resolve content, w)
    | None => (Reject (ReadError path), w)
    end.

(** Modelled from the spec: [getHash] of [lib/util], a deterministic
    content hash of the bytes of the file at [path]; a missing file has the
    digest [hashOf None]. *)
Definition getHash (path : string) : Async string :=
  fun w => (Resolve (hashOf (files w !! path)), w).

(** Modelled from the spec: [ensureDirExist] of [lib/util], which ensures
    that the parent directory of [path] exists; it is recorded as a call. *)
Definition ensureDirExist (path : string) : Async unit :=
  emit (EnsureDirExist path).

(** Modelled from the spec: [exec] of [lib/util], which invokes the command
    as a subprocess; a non-zero exit or a spawn failure rejects. *)
Definition exec (cmd : string) : Async unit :=
  fun w =>
    let w1 := logged (Exec cmd) w in
    match exec_effect cmd (files w) with
    | (Resolved, fs) => (Resolve tt, set_files fs w1)
    | (Rejected, fs) => (Reject (ExecError cmd), set_files fs w1)
    end.

(** Modelled from the spec: [Downloader.create().download(url, dist)] of
    [mkcert/downloader.ts]; failures propagate. *)
Definition download (url dist : string) : Async unit :=
  fun w =>
    let w1 := logged (Download url dist) w in
    match download_effect url dist (files w) with
    | (Resolved, fs) => (Resolve tt, set_files fs w1)
    | (Rejected, fs) => (Reject (DownloadError url dist), set_files fs w1)
    end.

Definition debug (format : string) (args : list (option string)) : Async unit :=
  emit (Debug format args).

Definition logger_info (msg : string) : Async unit := emit (LoggerInfo msg).

Definition logger_error (msg : string) : Async unit := emit (LoggerError msg).

(** Modelled from the spec: [Config.init] of [mkcert/config.ts].  The
    persisted state is a configuration/version record and a
    certificate-metadata record, made readable and writable by
    [config.init()]; the world's [config] is that state, and initialising
    leaves it as it is. *)
Definition config_init : Async unit := ret tt.

(** Modelled from the spec: [VersionManger.update] of [mkcert/version.ts],
    which persists the new version string to the version store. *)
Definition versionManger_update (v : string) : Async unit :=
  fun w => (Resolve tt, set_config (mkConfig (Some v) (cfg_record (config w))) w).

(** Modelled from the spec: [Record.getHosts] and [Record.getHash] of
    [mkcert/record.ts], the two fields of the persisted certificate record,
    absent before the first successful generation. *)
Definition record_getHosts : Async (option (list string)) :=
  fun w => (Resolve (rec_hosts <$> cfg_record (config w)), w).

Definition record_getHash : Async (option RecordHash) :=
  fun w => (Resolve (rec_hash <$> cfg_record (config w)), w).

(** Set equality of two host lists, whatever their order. *)
Definition same_hosts (a b : list string) : Prop :=
  list_to_set a =@{gset string} list_to_set b.

#[global] Instance same_hosts_dec (a b : list string) : Decision (same_hosts a b).
Proof. unfold same_hosts. apply _. Defined.

#[global] Instance RecordHash_eq_dec : EqDecision RecordHash.
Proof. solve_decision. Defined.

(** Modelled from the spec: [Record.contains] of [mkcert/record.ts].  The
    requested hosts are compared with the recorded host set by set
    equality, order-independent; with no record they differ. *)
Definition record_contains (hosts : list string) : Async bool :=
  fun w =>
    (Resolve
       match cfg_record (config w) with
       | Some r => bool_decide (same_hosts hosts (rec_hosts r))
       | None => false
       end, w).

(** Modelled from the spec: [Record.tamper] of [mkcert/record.ts].  The live
    hash of the two files is compared with the recorded hash; it is a
    tamper when they differ. *)
Definition record_tamper (hash : RecordHash) : Async bool :=
  fun w =>
    (Resolve
       match cfg_record (config w) with
       | Some r => bool_decide (hash ≠ rec_hash r)
       | None => true
       end, w).

(** Modelled from the spec: [Record.update] of [mkcert/record.ts], which
    overwrites the persisted record with the new [{ hosts, hash }]. *)
Definition record_update (r : RecordMate) : Async unit :=
  fun w => (Resolve tt, set_config (mkConfig (cfg_version (config w)) (Some r)) w).

(** ** The class [Mkcert] *)

Definition KEY_FILE_PATH : string := resolvePath "certs/dev.key".
Definition CERT_FILE_PATH : string := resolvePath "certs/dev.pem".

(** The constructor, through [Mkcert.create]. *)
Definition create (options : MkcertOptions) : Mkcert :=
  let sourceType :=
    match opt_source options with
    | Some s => s
    | None => github
    end in
  {| autoUpgrade := opt_autoUpgrade options;
     mkcertLocalPath := opt_mkcertPath options;
     source :=
       match sourceType with
       | github => GithubSource_create
       | coding => CodingSource_create
       | custom s => s
       end;
     mkcertSavedPath :=
       resolvePath (if decide (platform = "win32") then "mkcert.exe" else "mkcert");
     sourceType := sourceType |}.

(** Check if mkcert exists. *)
Definition checkMkcert (this : Mkcert) : Async bool :=
  match JS.truthy (mkcertLocalPath this) with
  | Some localPath =>
      exist ← exists_ localPath;
      logger_error
        (chalk_red
           (localPath +:+ " does not exist, please check the mkcertPath paramter"));;
      ret exist
  | None =>
      exist ← exists_ (mkcertSavedPath this);
      ret exist
  end.

Definition getMkcertBinnary (this : Mkcert) : Async (option string) :=
  exist ← checkMkcert this;
  ret (if exist : bool
       then Some (JS.or_else (mkcertLocalPath this) (mkcertSavedPath this))
       else None).

Definition getCertificate : Async Certificate :=
  key ← readFile KEY_FILE_PATH;
  cert ← readFile CERT_FILE_PATH;
  ret (mkCertificate key cert).

(** The command line of the generation. *)
Definition command (mkcertBinnary : option string) (hostlist : string) : string :=
  JS.interpolate mkcertBinnary +:+ " -install -key-file " +:+ KEY_FILE_PATH
    +:+ " -cert-file " +:+ CERT_FILE_PATH +:+ " " +:+ hostlist.

Definition createCertificate (this : Mkcert) (hostnames : list string) : Async unit :=
  let hostlist := JS.join " " hostnames in
  mkcertBinnary ← getMkcertBinnary this;
  match JS.truthy mkcertBinnary with
  | None =>
      debug ("Mkcert does not exist, unable to generate certificate for " +:+ hostlist) []
  | Some _ => ret tt
  end;;
  ensureDirExist KEY_FILE_PATH;;
  ensureDirExist CERT_FILE_PATH;;
  let cmd := command mkcertBinnary hostlist in
  exec cmd;;
  logger_info
    ("The certificate is saved in:" +:+ JS.nl +:+ KEY_FILE_PATH +:+ JS.nl +:+ CERT_FILE_PATH).

Definition getLatestHash : Async RecordHash :=
  key ← getHash KEY_FILE_PATH;
  cert ← getHash CERT_FILE_PATH;
  ret (mkRecordHash key cert).

Definition regenerate (this : Mkcert) (hosts : list string) : Async unit :=
  createCertificate this hosts;;
  hash ← getLatestHash;
  record_update (mkRecordMate hosts hash).

Definition downloadMkcert (sourceUrl distPath : string) : Async unit :=
  download sourceUrl distPath.

(** [await source.getSourceInfo()]: the call is made and its promise
    awaited. *)
Definition source_getSourceInfo (source : BaseSource) : Async (option SourceInfo) :=
  fun w => (getSourceInfo source, logged GetSourceInfo w).

Definition updateMkcert (this : Mkcert) (mkcertExist : bool) : Async unit :=
  sourceInfo ← source_getSourceInfo (source this);
  match sourceInfo with
  | None =>
      match sourceType this with
      | github =>
          debug "Failed to request mkcert information, please check your network" [];;
          debug
            ("If you are a user in china, maybe you should set " +:+ JS.dq +:+ "source"
               +:+ JS.dq +:+ " paramter to " +:+ JS.dq +:+ "coding" +:+ JS.dq) []
      | coding =>
          debug "Failed to request mkcert information, please check your network" []
      | custom _ =>
          debug
            ("Please check your custom " +:+ JS.dq +:+ "source" +:+ JS.dq
               +:+ ", it seems to return invalid result") []
      end;;
      debug "Can not get mkcert information, update skipped" []
  | Some sourceInfo =>
      if mkcertExist then
        versionInfo ← (fun w => (Resolve (compare (config w) (version sourceInfo)), w));
        if negb (shouldUpdate versionInfo) then
          debug "Mkcert is kept latest version, update skipped" []
        else if breakingChange versionInfo then
          debug
            "The current version of mkcert is %s, and the latest version is %s, there may be some breaking changes, update skipped"
            [currentVersion versionInfo; Some (nextVersion versionInfo)]
        else
          debug
            "The current version of mkcert is %s, and the latest version is %s, mkcert will be updated"
            [currentVersion versionInfo; Some (nextVersion versionInfo)];;
          downloadMkcert (downloadUrl sourceInfo) (mkcertSavedPath this);;
          versionManger_update (nextVersion versionInfo)
      else
        debug "mkcert does not exist, download it now" [];;
        downloadMkcert (downloadUrl sourceInfo) (mkcertSavedPath this);;
        versionManger_update (version sourceInfo)
  end.

Definition init (this : Mkcert) : Async unit :=
  config_init;;
  exist ← checkMkcert this;
  if JS.truthy_bool (autoUpgrade this) || negb exist then
    updateMkcert this exist
  else ret tt.

(** The two template literals [renew] logs. *)
Definition hosts_changed (oldHosts : option (list string)) (hosts : list string) : string :=
  "The hosts changed from [" +:+ JS.interpolate_array oldHosts +:+ "] to ["
    +:+ JS.interpolate_array (Some hosts) +:+ "], start regenerate certificate".

Definition hash_changed (oldHash : option RecordHash) (hash : RecordHash) : string :=
  "The hash changed from " +:+ prettyLog oldHash +:+ " to "
    +:+ prettyLog (Some hash) +:+ ", start regenerate certificate".

Definition renew (this : Mkcert) (hosts : list string) : Async unit :=
  contains ← record_contains hosts;
  if negb contains then
    oldHosts ← record_getHosts;
    logger_info (hosts_changed oldHosts hosts);;
    regenerate this hosts
  else
    hash ← getLatestHash;
    tampered ← record_tamper hash;
    if tampered : bool then
      oldHash ← record_getHash;
      logger_info (hash_changed oldHash hash);;
      regenerate this hosts
    else
      debug "Neither hosts nor hash has changed, skip regenerate certificate" [].

(** Get certificates. *)
Definition install (this : Mkcert) (hosts : list string) : Async Certificate :=
  match hosts with
  | [] => ret tt
  | _ :: _ => renew this hosts
  end;;
  getCertificate.

(** ** What a run is observed by *)

(** The path [getMkcertBinnary] answers with, and whether a file is there. *)
Definition binary_path (this : Mkcert) : string :=
  JS.or_else (mkcertLocalPath this) (mkcertSavedPath this).

Definition binary_exists (this : Mkcert) (fs : gmap string string) : bool :=
  bool_decide (is_Some (fs !! binary_path this)).

Definition binary_reference (this : Mkcert) (fs : gmap string string) : option string :=
  if binary_exists this fs then Some (binary_path this) else None.

(** What [checkMkcert] logs. *)
Definition check_trace (this : Mkcert) : list Event :=
  match JS.truthy (mkcertLocalPath this) with
  | Some localPath =>
      [LoggerError
         (chalk_red
            (localPath +:+ " does not exist, please check the mkcertPath paramter"))]
  | None => []
  end.

(** What [createCertificate] writes when it finds no binary. *)
Definition missing_diagnostic (mkcertBinnary : option string) (hostlist : string) :
    list Event :=
  match JS.truthy mkcertBinnary with
  | None =>
      [Debug ("Mkcert does not exist, unable to generate certificate for " +:+ hostlist) []]
  | Some _ => []
  end.

(** The calls of [createCertificate] up to the spawning of [cmd]. *)
Definition generation_trace (this : Mkcert) (fs : gmap string string)
    (hosts : list string) (cmd : string) : list Event :=
  check_trace this
    ++ missing_diagnostic (binary_reference this fs) (JS.join " " hosts)
    ++ [EnsureDirExist KEY_FILE_PATH; EnsureDirExist CERT_FILE_PATH; Exec cmd].

Definition saved_message : string :=
  "The certificate is saved in:" +:+ JS.nl +:+ KEY_FILE_PATH +:+ JS.nl +:+ CERT_FILE_PATH.

(** The digests of the two certificate files as they are on disk. *)
Definition live_hash (fs : gmap string string) : RecordHash :=
  mkRecordHash (hashOf (fs !! KEY_FILE_PATH)) (hashOf (fs !! CERT_FILE_PATH)).

(** The requested hosts are not the recorded host set. *)
Definition hosts_differ (w : World) (hosts : list string) : Prop :=
  match cfg_record (config w) with
  | Some r => ¬ same_hosts hosts (rec_hosts r)
  | None => True
  end.

(** The files on disk do not hash to the recorded hash. *)
Definition hash_differs (w : World) : Prop :=
  match cfg_record (config w) with
  | Some r => live_hash (files w) ≠ rec_hash r
  | None => True
  end.

#[global] Instance hosts_differ_dec w hosts : Decision (hosts_differ w hosts).
Proof. unfold hosts_differ. destruct (cfg_record (config w)); apply _. Defined.

#[global] Instance hash_differs_dec w : Decision (hash_differs w).
Proof. unfold hash_differs. destruct (cfg_record (config w)); apply _. Defined.

(** The diagnostics [updateMkcert] writes when the source answers nothing,
    before the closing one. *)
Definition source_diagnostics (t : SourceType) : list Event :=
  match t with
  | github =>
      [Debug "Failed to request mkcert information, please check your network" [];
       Debug
         ("If you are a user in china, maybe you should set " +:+ JS.dq +:+ "source"
            +:+ JS.dq +:+ " paramter to " +:+ JS.dq +:+ "coding" +:+ JS.dq) []]
  | coding =>
      [Debug "Failed to request mkcert information, please check your network" []]
  | custom _ =>
      [Debug
         ("Please check your custom " +:+ JS.dq +:+ "source" +:+ JS.dq
            +:+ ", it seems to return invalid result") []]
  end.

End Embedding.

(** The invariant of a [VersionInfo] as the version manager builds it:
    [breakingChange = shouldUpdate && latest.major != current.major], so a
    breaking change is always an update. *)
Definition VersionInfo_consistent (v : VersionInfo) : Prop :=
  breakingChange v = true -> shouldUpdate v = true.

(** ** The plugin

    The [config] hook of [packages/plugin/src/index.ts], which creates a
    [Mkcert], provisions the binary and asks for the certificate of the
    configured hosts. *)

(** A JavaScript [Set] of strings: its elements in insertion order. *)
Definition Set_add (s : list string) (x : string) : list string :=
  if decide (x ∈ s) then s else s ++ [x].

(** [new Set(iterable)] adds the elements one after the other. *)
Definition new_Set (iterable : list string) : list string :=
  foldl Set_add [] iterable.

(** [Array.from(new Set(hosts))]. *)
Definition Array_from_Set (hosts : list string) : list string := new_Set hosts.

(** [ViteCertificateOptions = MkcertOptions & { hosts?: string[] }]. *)
Record ViteCertificateOptions := mkViteCertificateOptions {
  vite_hosts : option (list string);
  vite_mkcertOptions : MkcertOptions
}.

(** [config.server?.https] of the user configuration: a boolean or an
    options object. *)
Inductive HttpsOption :=
| https_boolean (b : bool)
| https_object.

Record ServerOptions := mkServerOptions {
  https : option HttpsOption
}.

Record UserConfig := mkUserConfig {
  server : option ServerOptions
}.

(** Truthiness of [config.server?.https]. *)
Definition https_truthy (config : UserConfig) : bool :=
  match server config with
  | Some s =>
      match https s with
      | Some (https_boolean b) => b
      | Some https_object => true
      | None => false
      end
  | None => false
  end.

(** [getDefaultHosts] of [lib/util]. *)
Class HostUtil := {
  getDefaultHosts : list string
}.

Section Plugin.

Context `{Collaborators} `{VersionPolicy} `{HostUtil}.

(** The [config] hook.  It answers the certificate to merge under
    [server.https], or nothing. *)
Definition plugin_config (options : ViteCertificateOptions) (config : UserConfig) :
    Async (option Certificate) :=
  if negb (https_truthy config) then ret None
  else
    let hosts :=
      match vite_hosts options with
      | Some hosts => hosts
      | None => getDefaultHosts
      end in
    let mkcert := create (vite_mkcertOptions options) in
    init mkcert;;
    let uniqueHosts := Array_from_Set hosts in
    certificate ← install mkcert uniqueHosts;
    ret (Some certificate).

End Plugin.

(** ** A concrete world

    One instance of every collaborator, on which the definitions above can
    be run. *)

Module Fixture.

Definition run_command (cmd : string) (fs : gmap string string) :
    Outcome * gmap string string :=
  if String.prefix "undefined" cmd then (Rejected, fs)
  else
    (Resolved,
     <["/app/node_modules/.mkcert/certs/dev.key" := "KEY " +:+ cmd]>
       (<["/app/node_modules/.mkcert/certs/dev.pem" := "CERT " +:+ cmd]> fs)).

Definition collaborators : Collaborators := {|
  resolvePath := fun p => "/app/node_modules/.mkcert/" +:+ p;
  platform := "linux";
  exec_effect := run_command;
  download_effect := fun url dist fs => (Resolved, <[dist := "ELF " +:+ url]> fs);
  hashOf := fun content =>
    match content with
    | Some c => "sha256 " +:+ c
    | None => "missing"
    end;
  GithubSource_create :=
    mkBaseSource (Resolve (Some (mkSourceInfo "v1.4.4" "https://github.com/mkcert")));
  CodingSource_create := mkBaseSource (Resolve None);
  chalk_red := fun s => s;
  prettyLog := fun h =>
    match h with
    | Some h => "{" +:+ hash_key h +:+ "," +:+ hash_cert h +:+ "}"
    | None => "undefined"
    end
|}.

#[local] Existing Instance collaborators.

(** A version manager that finds every new major version breaking. *)
Definition versions : VersionPolicy := {|
  compare := fun cfg latest =>
    mkVersionInfo (cfg_version cfg) latest
      (bool_decide (cfg_version cfg = Some "v1.4.4" ∧ latest = "v2.0.0"))
      (bool_decide (cfg_version cfg ≠ Some latest))
|}.

#[local] Existing Instance versions.

Definition saved_binary : string := "/app/node_modules/.mkcert/mkcert".

(** A plugin created with the defaults, and one with a local binary. *)
Definition plugin : Mkcert := create (mkMkcertOptions None None None).

Definition offline : Mkcert :=
  create (mkMkcertOptions None (Some coding) (Some "/usr/local/bin/mkcert")).

(** A plugin whose source cannot be reached. *)
Definition mirror : Mkcert := create (mkMkcertOptions None (Some coding) None).

(** A plugin that upgrades from a custom source offering the next major
    version. *)
Definition next_major : BaseSource :=
  mkBaseSource (Resolve (Some (mkSourceInfo "v2.0.0" "https://example.org/mkcert"))).

Definition upgrading : Mkcert :=
  create (mkMkcertOptions (Some true) (Some (custom next_major)) None).

(** Nothing installed, nothing recorded. *)
Definition fresh : World := mkWorld ∅ (mkConfig None None) [].

(** The binary is installed and no certificate was generated yet. *)
Definition installed : World :=
  mkWorld {[ saved_binary := "ELF" ]} (mkConfig (Some "v1.4.4") None) [].

(** The local binary of [offline] is there. *)
Definition local_installed : World :=
  mkWorld {[ "/usr/local/bin/mkcert" := "ELF" ]} (mkConfig None None) [].

(** The files after a first request for [localhost], with the key file
    overwritten from outside. *)
Definition tampered_files : gmap string string :=
  <[ "/app/node_modules/.mkcert/certs/dev.key" := "BEGIN PRIVATE KEY" ]>
    (files (snd (install plugin ["localhost"] installed))).

(** What the command of [run_command] writes for [localhost]. *)
Definition localhost_certificate : Certificate :=
  let cmd :=
    "/app/node_modules/.mkcert/mkcert -install -key-file /app/node_modules/.mkcert/certs/dev.key -cert-file /app/node_modules/.mkcert/certs/dev.pem localhost" in
  mkCertificate ("KEY " +:+ cmd) ("CERT " +:+ cmd).

(** The world a first request for [localhost] leaves. *)
Definition settled : World := snd (install plugin ["localhost"] installed).

(** The installed binary is one patch behind the source. *)
Definition outdated : World :=
  mkWorld {[ saved_binary := "ELF" ]} (mkConfig (Some "v1.4.3") None) [].

(** A plugin that upgrades from the default source. *)
Definition autoUpgrading : Mkcert := create (mkMkcertOptions (Some true) None None).

(** A plugin with a local binary and the default source. *)
Definition local_github : Mkcert :=
  create (mkMkcertOptions None None (Some "/usr/local/bin/mkcert")).

(** The same collaborators behind a network that lets no download through. *)
Definition unreachable : Collaborators := {|
  resolvePath := @resolvePath collaborators;
  platform := @platform collaborators;
  exec_effect := @exec_effect collaborators;
  download_effect := fun url dist fs => (Rejected, fs);
  hashOf := @hashOf collaborators;
  GithubSource_create := @GithubSource_create collaborators;
  CodingSource_create := @CodingSource_create collaborators;
  chalk_red := @chalk_red collaborators;
  prettyLog := @prettyLog collaborators
|}.

(** A plugin whose own source throws. *)
Definition throwing_source : BaseSource :=
  mkBaseSource (Reject (SourceError "ECONNRESET")).

Definition broken : Mkcert :=
  create (mkMkcertOptions None (Some (custom throwing_source)) None).

Definition hostUtil : HostUtil := {| getDefaultHosts := ["localhost"; "192.168.1.10"] |}.

#[local] Existing Instance hostUtil.

(** A dev server with [https: true]. *)
Definition secure : UserConfig :=
  mkUserConfig (Some (mkServerOptions (Some (https_boolean true)))).

End Fixture.

(** * Properties *)

#[local] Arguments String.append : simpl never.

(** Unfolds one layer of [await]s. *)
Ltac await :=
  repeat progress
    (unfold mbind, mret, Async_bind, Async_ret, bind, ret, emit, debug,
       logger_info, logger_error, ensureDirExist, set_files, set_config, logged;
     simpl).

Lemma World_eta (w : World) : mkWorld (files w) (config w) (trace w) = w.
Proof. by destruct w. Qed.

Lemma regenerations_app (a b : list Event) :
  regenerations (a ++ b) = regenerations a + regenerations b.
Proof. unfold regenerations. by rewrite filter_app, length_app. Qed.

Lemma regenerations_singleton (e : Event) :
  regenerations [e] = if is_exec e then 1 else 0.
Proof. by destruct e. Qed.

Lemma downloads_app (a b : list Event) :
  downloads (a ++ b) = downloads a + downloads b.
Proof. unfold downloads. by rewrite filter_app, length_app. Qed.

Section Runs.

Context `{Collaborators} `{VersionPolicy}.

Lemma checkMkcert_run (this : Mkcert) (w : World) :
  checkMkcert this w =
    (Resolve (binary_exists this (files w)),
     mkWorld (files w) (config w) (trace w ++ check_trace this)).
Proof.
  unfold checkMkcert, check_trace, binary_exists, binary_path, JS.or_else, exists_.
  destruct (JS.truthy (mkcertLocalPath this)); await.
  - done.
  - by rewrite app_nil_r, World_eta.
Qed.

Lemma regenerations_check_trace (this : Mkcert) : regenerations (check_trace this) = 0.
Proof. unfold check_trace. by destruct (JS.truthy _). Qed.

Lemma getMkcertBinnary_run (this : Mkcert) (w : World) :
  getMkcertBinnary this w =
    (Resolve (binary_reference this (files w)),
     mkWorld (files w) (config w) (trace w ++ check_trace this)).
Proof.
  unfold getMkcertBinnary. await. by rewrite checkMkcert_run.
Qed.

Lemma regenerations_generation_trace (this : Mkcert) fs hosts cmd :
  regenerations (generation_trace this fs hosts cmd) = 1.
Proof.
  unfold generation_trace, missing_diagnostic.
  rewrite !regenerations_app, regenerations_check_trace.
  by destruct (JS.truthy _).
Qed.

Lemma createCertificate_run (this : Mkcert) (hosts : list string) (w : World) :
  createCertificate this hosts w =
    let cmd := command (binary_reference this (files w)) (JS.join " " hosts) in
    let t := trace w ++ generation_trace this (files w) hosts cmd in
    match exec_effect cmd (files w) with
    | (Resolved, fs) =>
        (Resolve tt, mkWorld fs (config w) (t ++ [LoggerInfo saved_message]))
    | (Rejected, fs) => (Reject (ExecError cmd), mkWorld fs (config w) t)
    end.
Proof.
  unfold createCertificate, generation_trace, missing_diagnostic, saved_message, exec.
  await. rewrite getMkcertBinnary_run. simpl.
  destruct (JS.truthy (binary_reference this (files w))); simpl;
    destruct (exec_effect _ (files w)) as [[] fs]; await;
    by rewrite <- ?app_assoc.
Qed.

Lemma getLatestHash_run (w : World) :
  getLatestHash w = (Resolve (live_hash (files w)), w).
Proof. done. Qed.

Lemma regenerate_run (this : Mkcert) (hosts : list string) (w : World) :
  regenerate this hosts w =
    let cmd := command (binary_reference this (files w)) (JS.join " " hosts) in
    let t := trace w ++ generation_trace this (files w) hosts cmd in
    match exec_effect cmd (files w) with
    | (Resolved, fs) =>
        (Resolve tt,
         mkWorld fs
           (mkConfig (cfg_version (config w)) (Some (mkRecordMate hosts (live_hash fs))))
           (t ++ [LoggerInfo saved_message]))
    | (Rejected, fs) => (Reject (ExecError cmd), mkWorld fs (config w) t)
    end.
Proof.
  unfold regenerate. await. rewrite createCertificate_run. simpl.
  by destruct (exec_effect _ (files w)) as [[] fs].
Qed.

Lemma getCertificate_run (w : World) :
  getCertificate w =
    (match files w !! KEY_FILE_PATH, files w !! CERT_FILE_PATH with
     | Some k, Some c => Resolve (mkCertificate k c)
     | None, _ => Reject (ReadError KEY_FILE_PATH)
     | Some _, None => Reject (ReadError CERT_FILE_PATH)
     end, w).
Proof.
  unfold getCertificate, readFile. await.
  destruct (files w !! KEY_FILE_PATH); [|done].
  by destruct (files w !! CERT_FILE_PATH).
Qed.

Lemma renew_hosts_differ (this : Mkcert) (hosts : list string) (w : World) :
  hosts_differ w hosts ->
  renew this hosts w =
    regenerate this hosts
      (logged (LoggerInfo (hosts_changed (rec_hosts <$> cfg_record (config w)) hosts)) w).
Proof.
  unfold hosts_differ, renew, record_contains, record_getHosts. await.
  destruct (cfg_record (config w)) as [r|] eqn:Hr; intros Hne.
  - rewrite bool_decide_eq_false_2 by done. await. by rewrite Hr.
  - await. by rewrite Hr.
Qed.

Lemma renew_tampered (this : Mkcert) (hosts : list string) (w : World) :
  ¬ hosts_differ w hosts -> hash_differs w ->
  renew this hosts w =
    regenerate this hosts
      (logged
         (LoggerInfo
            (hash_changed (rec_hash <$> cfg_record (config w)) (live_hash (files w)))) w).
Proof.
  unfold hosts_differ, hash_differs, renew, record_contains, record_tamper,
    record_getHash.
  await.
  destruct (cfg_record (config w)) as [r|] eqn:Hr; [|done].
  intros Hsame Hne. apply dec_stable in Hsame.
  rewrite bool_decide_eq_true_2 by done. simpl. rewrite Hr.
  rewrite bool_decide_eq_true_2 by done. await. by rewrite Hr.
Qed.

Lemma renew_unchanged (this : Mkcert) (hosts : list string) (w : World) :
  ¬ hosts_differ w hosts -> ¬ hash_differs w ->
  renew this hosts w =
    (Resolve tt,
     logged (Debug "Neither hosts nor hash has changed, skip regenerate certificate" []) w).
Proof.
  unfold hosts_differ, hash_differs, renew, record_contains, record_tamper.
  await.
  destruct (cfg_record (config w)) as [r|] eqn:Hr; [|done].
  intros Hsame Heq. apply dec_stable in Hsame.
  rewrite bool_decide_eq_true_2 by done. simpl. rewrite Hr.
  by rewrite bool_decide_eq_false_2.
Qed.

End Runs.

Section Install.

Context `{Collaborators} `{VersionPolicy}.

Lemma getCertificate_world (w : World) : snd (getCertificate w) = w.
Proof. by rewrite getCertificate_run. Qed.

Lemma install_world (this : Mkcert) (hosts : list string) (w : World) :
  hosts ≠ [] -> snd (install this hosts w) = snd (renew this hosts w).
Proof.
  intros Hne. destruct hosts as [|h hosts]; [done|].
  unfold install. await.
  destruct (renew this (h :: hosts) w) as [[[]|e] w']; [|done].
  apply getCertificate_world.
Qed.

Lemma install_result (this : Mkcert) (hosts : list string) (w : World) :
  hosts ≠ [] ->
  fst (install this hosts w) =
    match fst (renew this hosts w) with
    | Resolve _ => fst (getCertificate (snd (renew this hosts w)))
    | Reject e => Reject e
    end.
Proof.
  intros Hne. destruct hosts as [|h hosts]; [done|].
  unfold install. await.
  by destruct (renew this (h :: hosts) w) as [[[]|e] w'].
Qed.

(** One regeneration spawns the binary exactly once, whatever comes of it. *)
Lemma regenerate_once (this : Mkcert) (hosts : list string) (w : World) :
  ∃ rest,
    trace (snd (regenerate this hosts w)) = trace w ++ rest ∧ regenerations rest = 1.
Proof.
  rewrite regenerate_run. simpl.
  destruct (exec_effect _ (files w)) as [[] fs]; simpl.
  - eexists. rewrite <- app_assoc. split; [done|].
    by rewrite regenerations_app, regenerations_generation_trace.
  - eexists. split; [done|]. apply regenerations_generation_trace.
Qed.

(** [renew] by cases, as a world. *)
Lemma renew_cases (this : Mkcert) (hosts : list string) (w : World) :
  (∃ e, (hosts_differ w hosts ∨ hash_differs w)
        ∧ renew this hosts w = regenerate this hosts (logged (LoggerInfo e) w))
  ∨ (¬ hosts_differ w hosts ∧ ¬ hash_differs w
     ∧ ∃ e, is_exec e = false ∧ renew this hosts w = (Resolve tt, logged e w)).
Proof.
  destruct (decide (hosts_differ w hosts)) as [Hh|Hh].
  - left. eexists. split; [by left|]. by apply renew_hosts_differ.
  - destruct (decide (hash_differs w)) as [Ht|Ht].
    + left. eexists. split; [by right|]. by apply renew_tampered.
    + right. do 2 (split; [done|]). eexists. split; [|by apply renew_unchanged]. done.
Qed.

(** A call that was not stopped by the generation command leaves a record
    that agrees with the request and with the files. *)
Lemma install_settles (this : Mkcert) (hosts : list string) (w : World) :
  hosts ≠ [] ->
  (∀ cmd, fst (install this hosts w) ≠ Reject (ExecError cmd)) ->
  let w1 := snd (install this hosts w) in
  ¬ hosts_differ w1 hosts ∧ ¬ hash_differs w1
  ∧ regenerations (trace w1) ≤ S (regenerations (trace w)).
Proof.
  intros Hne Hok w1. subst w1.
  pose proof (install_result this hosts w Hne) as Hres.
  rewrite install_world by done.
  destruct (renew_cases this hosts w) as [(e & _ & Hrun)|(Hh & Ht & e & He & Hrun)];
    rewrite Hrun in *.
  - rewrite regenerate_run in *. simpl in *.
    destruct (exec_effect _ (files w)) as [[] fs]; simpl in *.
    + unfold hosts_differ, hash_differs, same_hosts. simpl.
      repeat split; [tauto..|].
      rewrite <- !app_assoc, !regenerations_app, regenerations_generation_trace.
      simpl. change (regenerations [LoggerInfo _]) with 0. lia.
    + by destruct (Hok _ Hres).
  - simpl. repeat split; [done..|].
    rewrite regenerations_app, regenerations_singleton, He. lia.
Qed.

(** ** The decision of [renew] *)

(** C1.  For a non-empty host list, [install] regenerates the certificate
    if and only if the hosts are not the recorded host set or the live hash
    of the two certificate files is not the recorded hash.  The host check
    comes first: when it fires, the run starts by logging the change of
    hosts, and the change of hash is logged only when the hosts agree.  When
    neither fires, the binary is not spawned, files and record are left as
    they are, and the answer is the content of the two certificate files on
    disk (or the read error of the first one that is missing). *)
Theorem install_regenerates_iff (this : Mkcert) (hosts : list string) (w : World) :
  hosts ≠ [] ->
  let w' := snd (install this hosts w) in
  (regenerations (trace w') = S (regenerations (trace w))
     ↔ hosts_differ w hosts ∨ hash_differs w)
  ∧ (regenerations (trace w') = regenerations (trace w)
     ↔ ¬ (hosts_differ w hosts ∨ hash_differs w))
  ∧ (hosts_differ w hosts ->
     ∃ rest,
       trace w' =
         trace w
           ++ LoggerInfo (hosts_changed (rec_hosts <$> cfg_record (config w)) hosts)
           :: rest)
  ∧ (¬ hosts_differ w hosts -> hash_differs w ->
     ∃ rest,
       trace w' =
         trace w
           ++ LoggerInfo
                (hash_changed (rec_hash <$> cfg_record (config w)) (live_hash (files w)))
           :: rest)
  ∧ (¬ hosts_differ w hosts -> ¬ hash_differs w ->
     files w' = files w ∧ config w' = config w
     ∧ fst (install this hosts w) =
         match files w !! resolvePath "certs/dev.key",
               files w !! resolvePath "certs/dev.pem" with
         | Some k, Some c => Resolve (mkCertificate k c)
         | None, _ => Reject (ReadError (resolvePath "certs/dev.key"))
         | Some _, None => Reject (ReadError (resolvePath "certs/dev.pem"))
         end).
Proof.
  intros Hne w'. subst w'. rewrite install_world by done.
  destruct (decide (hosts_differ w hosts)) as [Hh|Hh].
  - rewrite renew_hosts_differ by done.
    destruct (regenerate_once this hosts
                (logged (LoggerInfo (hosts_changed (rec_hosts <$> cfg_record (config w)) hosts)) w))
      as (rest & -> & Hrest).
    simpl. rewrite <- app_assoc, !regenerations_app, Hrest. simpl.
    repeat split; try tauto; try lia; eauto.
  - destruct (decide (hash_differs w)) as [Ht|Ht].
    + rewrite renew_tampered by done.
      destruct (regenerate_once this hosts
                  (logged
                     (LoggerInfo
                        (hash_changed (rec_hash <$> cfg_record (config w)) (live_hash (files w)))) w))
        as (rest & -> & Hrest).
      simpl. rewrite <- app_assoc, !regenerations_app, Hrest. simpl.
      repeat split; try tauto; try lia; eauto.
    + rewrite install_result by done. rewrite renew_unchanged by done. simpl.
      rewrite regenerations_app, !getCertificate_run.
      change (regenerations [Debug _ _]) with 0. simpl.
      repeat split; try tauto; lia.
Qed.

(** C2.  Two calls of [install] with the same non-empty hosts and nothing
    changed in between: once the first call has come past the generation
    command, the record holds the requested hosts and the hash of the files,
    and the second call spawns nothing, changes neither files nor record and
    returns the certificate on disk.  Both calls together regenerate at most
    once. *)
Theorem install_twice_regenerates_once (this : Mkcert) (hosts : list string) (w : World) :
  hosts ≠ [] ->
  (∀ cmd, fst (install this hosts w) ≠ Reject (ExecError cmd)) ->
  let w1 := snd (install this hosts w) in
  let w2 := snd (install this hosts w1) in
  (∃ r, cfg_record (config w1) = Some r
        ∧ same_hosts hosts (rec_hosts r) ∧ rec_hash r = live_hash (files w1))
  ∧ regenerations (trace w2) = regenerations (trace w1)
  ∧ regenerations (trace w2) ≤ S (regenerations (trace w))
  ∧ files w2 = files w1 ∧ config w2 = config w1
  ∧ fst (install this hosts w1) = fst (getCertificate w1).
Proof.
  intros Hne Hok w1 w2.
  destruct (install_settles this hosts w Hne Hok) as (Hh & Ht & Hle).
  fold w1 in Hh, Ht, Hle. subst w2.
  rewrite install_result, install_world by done.
  rewrite renew_unchanged by done. simpl.
  rewrite regenerations_app, !getCertificate_run.
  change (regenerations [Debug _ _]) with 0. simpl.
  split; [|repeat split; lia].
  unfold hosts_differ, hash_differs in Hh, Ht.
  destruct (cfg_record (config w1)) as [r|]; [|tauto].
  exists r. apply dec_stable in Hh. apply dec_stable in Ht. done.
Qed.

(** C4.  Between two calls of [install] with the same non-empty hosts the
    files are replaced from outside so that the hash of the key file or of
    the certificate file is no longer what it was.  The second call finds
    the hosts unchanged, logs the change from the recorded hash to the live
    one, and regenerates. *)
Theorem install_detects_tampering (this : Mkcert) (hosts : list string) (w : World)
    (fs' : gmap string string) :
  hosts ≠ [] ->
  (∀ cmd, fst (install this hosts w) ≠ Reject (ExecError cmd)) ->
  let w1 := snd (install this hosts w) in
  hashOf (fs' !! KEY_FILE_PATH) ≠ hashOf (files w1 !! KEY_FILE_PATH)
    ∨ hashOf (fs' !! CERT_FILE_PATH) ≠ hashOf (files w1 !! CERT_FILE_PATH) ->
  let w2 := snd (install this hosts (set_files fs' w1)) in
  regenerations (trace w2) = S (regenerations (trace w1))
  ∧ ∃ rest,
      trace w2 =
        trace w1
          ++ LoggerInfo (hash_changed (Some (live_hash (files w1))) (live_hash fs'))
          :: rest.
Proof.
  intros Hne Hok w1 Halt w2.
  destruct (install_settles this hosts w Hne Hok) as (Hh & Ht & _).
  fold w1 in Hh, Ht.
  assert (Hrec : ∃ r, cfg_record (config w1) = Some r ∧ rec_hash r = live_hash (files w1)).
  { unfold hash_differs, hosts_differ in *.
    destruct (cfg_record (config w1)) as [r|]; [|tauto].
    exists r. split; [done|]. by apply dec_stable in Ht. }
  destruct Hrec as (r & Hr & Hhash).
  assert (Hh' : ¬ hosts_differ (set_files fs' w1) hosts) by done.
  assert (Ht' : hash_differs (set_files fs' w1)).
  { unfold hash_differs. simpl. rewrite Hr, Hhash. unfold live_hash.
    intros [=]. destruct Halt; congruence. }
  subst w2. rewrite install_world by done. rewrite renew_tampered by done.
  simpl. rewrite Hr. simpl. rewrite Hhash.
  destruct (regenerate_once this hosts
              (logged (LoggerInfo (hash_changed (Some (live_hash (files w1))) (live_hash fs')))
                 (set_files fs' w1)))
    as (rest & -> & Hrest).
  simpl. rewrite <- app_assoc, !regenerations_app, Hrest. simpl.
  split; [|by eauto].
  change (regenerations [LoggerInfo _]) with 0. lia.
Qed.

(** C5.  The record is written only behind a successful generation
    command.  When the command is rejected, [regenerate] is rejected with
    that failure before [record.update] and the configuration is what it
    was; the same holds for [install], which hands the failure to its
    caller whenever it had to regenerate. *)
Theorem regenerate_failure_keeps_record (this : Mkcert) (hosts : list string)
    (w : World) :
  let cmd := command (binary_reference this (files w)) (JS.join " " hosts) in
  fst (exec_effect cmd (files w)) = Rejected ->
  (fst (regenerate this hosts w) = Reject (ExecError cmd)
   ∧ config (snd (regenerate this hosts w)) = config w)
  ∧ config (snd (install this hosts w)) = config w
  ∧ (hosts ≠ [] -> hosts_differ w hosts ∨ hash_differs w ->
     fst (install this hosts w) = Reject (ExecError cmd)).
Proof.
  intros cmd Hrej. subst cmd.
  assert (Hregen : ∀ e,
    regenerate this hosts (logged e w)
      = (Reject (ExecError (command (binary_reference this (files w)) (JS.join " " hosts))),
         snd (regenerate this hosts (logged e w)))
    ∧ config (snd (regenerate this hosts (logged e w))) = config w).
  { intros e. rewrite regenerate_run. simpl.
    destruct (exec_effect _ (files w)) as [[] fs]; by simpl in *. }
  split; [|split].
  - rewrite regenerate_run. simpl.
    destruct (exec_effect _ (files w)) as [[] fs]; by simpl in *.
  - destruct hosts as [|h hosts].
    { unfold install. await. by rewrite getCertificate_run. }
    rewrite install_world by done.
    destruct (renew_cases this (h :: hosts) w) as [(e & _ & ->)|(_ & _ & e & _ & ->)].
    + apply Hregen.
    + done.
  - intros Hne Hneed. rewrite install_result by done.
    destruct (renew_cases this hosts w) as [(e & _ & ->)|(Hh & Ht & _)]; [|tauto].
    destruct (Hregen (LoggerInfo e)) as [-> _]. done.
Qed.

End Install.

Section Certificate.

Context `{Collaborators} `{VersionPolicy}.

(** C3.  With no hosts, [install] is [getCertificate] and nothing else: the
    world, its trace included, is left as it was, so neither [renew] nor a
    regeneration took place.  The answer is the content of the two fixed
    files, or the read error of the first one that is missing. *)
Theorem install_empty_hosts (this : Mkcert) (w : World) :
  install this [] w = getCertificate w
  ∧ snd (install this [] w) = w
  ∧ fst (install this [] w) =
      match files w !! resolvePath "certs/dev.key", files w !! resolvePath "certs/dev.pem" with
      | Some k, Some c => Resolve (mkCertificate k c)
      | None, _ => Reject (ReadError (resolvePath "certs/dev.key"))
      | Some _, None => Reject (ReadError (resolvePath "certs/dev.pem"))
      end.
Proof.
  assert (Hrun : install this [] w = getCertificate w) by done.
  rewrite Hrun, getCertificate_run. done.
Qed.

(** C9.  Every regeneration spawns one command, of the form
    [<binary> -install -key-file <key path> -cert-file <cert path> <hosts>]
    with the hosts joined by single spaces and the two fixed paths, after
    [ensureDirExist] was called on both paths.  The binary is the path
    [getMkcertBinnary] answers; when it answers nothing the command is
    spawned all the same, the absent reference being interpolated into the
    template literal. *)
Theorem regenerate_command (this : Mkcert) (hosts : list string) (w : World) :
  let keyFile := resolvePath "certs/dev.key" in
  let certFile := resolvePath "certs/dev.pem" in
  let mkcertBinnary :=
    if binary_exists this (files w) then Some (binary_path this) else None in
  let cmd :=
    JS.interpolate mkcertBinnary +:+ " -install -key-file " +:+ keyFile
      +:+ " -cert-file " +:+ certFile +:+ " " +:+ String.concat " " hosts in
  (∃ pre post,
      trace (snd (regenerate this hosts w)) =
        trace w ++ pre ++ [EnsureDirExist keyFile; EnsureDirExist certFile; Exec cmd] ++ post
      ∧ regenerations pre = 0 ∧ regenerations post = 0)
  ∧ (binary_exists this (files w) = true ->
     cmd = binary_path this +:+ " -install -key-file " +:+ keyFile
             +:+ " -cert-file " +:+ certFile +:+ " " +:+ String.concat " " hosts)
  ∧ (binary_exists this (files w) = false ->
     Exec (JS.interpolate None +:+ " -install -key-file " +:+ keyFile
             +:+ " -cert-file " +:+ certFile +:+ " " +:+ String.concat " " hosts)
       ∈ trace (snd (regenerate this hosts w))).
Proof.
  intros keyFile certFile mkcertBinnary cmd.
  assert (Htrace : ∃ pre post,
    trace (snd (regenerate this hosts w)) =
      trace w ++ pre ++ [EnsureDirExist keyFile; EnsureDirExist certFile; Exec cmd] ++ post
    ∧ regenerations pre = 0 ∧ regenerations post = 0).
  { rewrite regenerate_run. simpl.
    exists (check_trace this
              ++ missing_diagnostic (binary_reference this (files w)) (JS.join " " hosts)).
    destruct (exec_effect _ (files w)) as [[] fs]; simpl.
    - exists [LoggerInfo saved_message]. unfold generation_trace.
      rewrite <- !app_assoc. split; [done|].
      rewrite regenerations_app, regenerations_check_trace.
      unfold missing_diagnostic. by destruct (JS.truthy _).
    - exists []. unfold generation_trace.
      rewrite <- !app_assoc. split; [done|].
      rewrite regenerations_app, regenerations_check_trace.
      unfold missing_diagnostic. by destruct (JS.truthy _). }
  split; [done|]. split.
  - intros Hex. subst cmd mkcertBinnary. by rewrite Hex.
  - intros Hex. destruct Htrace as (pre & post & -> & _).
    subst cmd mkcertBinnary. rewrite Hex.
    rewrite !elem_of_app. right. right. left. set_solver.
Qed.

(** C10.  With a local binary path configured, the check for the binary
    logs at error level that the path does not exist on every call: the
    message is written after the existence test whatever the test found,
    also when the file is there and the check answers [true]. *)
Theorem checkMkcert_always_reports_missing (this : Mkcert) (w : World)
    (localPath : string) :
  mkcertLocalPath this = Some localPath ->
  localPath ≠ EmptyString ->
  checkMkcert this w =
    (Resolve (bool_decide (is_Some (files w !! localPath))),
     logged
       (LoggerError
          (chalk_red
             (localPath +:+ " does not exist, please check the mkcertPath paramter")))
       w).
Proof.
  intros Hlocal Hne. unfold checkMkcert, exists_.
  rewrite Hlocal. simpl. by destruct (decide (localPath = EmptyString)).
Qed.

End Certificate.

Section Provisioning.

Context `{Collaborators}.

(** C6.  The binary exists and the source answered.  When the comparison
    says there is nothing to update, or that the update is breaking,
    [updateMkcert] returns without a download and with files and persisted
    version as they were.  Nothing to update writes only the diagnostic
    that the latest version is kept; a breaking change writes the
    diagnostic that carries the current and the next version. *)
Theorem updateMkcert_skips `{VersionPolicy} (this : Mkcert) (w : World)
    (sourceInfo : SourceInfo) :
  getSourceInfo (source this) = Resolve (Some sourceInfo) ->
  let versionInfo := compare (config w) (version sourceInfo) in
  let w' := snd (updateMkcert this true w) in
  (shouldUpdate versionInfo = false ∨ breakingChange versionInfo = true ->
     fst (updateMkcert this true w) = Resolve tt
     ∧ downloads (trace w') = downloads (trace w)
     ∧ files w' = files w ∧ config w' = config w)
  ∧ (shouldUpdate versionInfo = false ->
     trace w' =
       trace w
         ++ [GetSourceInfo; Debug "Mkcert is kept latest version, update skipped" []])
  ∧ (breakingChange versionInfo = true -> VersionInfo_consistent versionInfo ->
     trace w' =
       trace w
         ++ [GetSourceInfo;
             Debug
               "The current version of mkcert is %s, and the latest version is %s, there may be some breaking changes, update skipped"
               [currentVersion versionInfo; Some (nextVersion versionInfo)]]).
Proof.
  intros Hsource versionInfo w'. subst w' versionInfo.
  unfold updateMkcert, source_getSourceInfo, VersionInfo_consistent. await.
  rewrite Hsource. await.
  destruct (compare (config w) (version sourceInfo)) as [cur next breaking update].
  simpl. destruct update, breaking; await;
    rewrite <- ?app_assoc; simpl;
    rewrite ?downloads_app; change (downloads [GetSourceInfo; Debug _ _]) with 0;
    repeat split; intros; try done; try lia; try tauto; try intuition congruence.
Qed.

(** C7.  The source answers nothing.  [updateMkcert] writes its
    diagnostics and returns: no download, files and persisted version
    untouched.  [init] then completes without throwing and leaves the files,
    the binary or its absence among them, and the configuration as they
    were; without a binary the closing diagnostic is in its trace. *)
Theorem updateMkcert_without_source `{VersionPolicy} (this : Mkcert) (w : World)
    (mkcertExist : bool) :
  getSourceInfo (source this) = Resolve None ->
  updateMkcert this mkcertExist w =
    (Resolve tt,
     mkWorld (files w) (config w)
       (trace w ++ [GetSourceInfo] ++ source_diagnostics (sourceType this)
          ++ [Debug "Can not get mkcert information, update skipped" []]))
  ∧ fst (init this w) = Resolve tt
  ∧ files (snd (init this w)) = files w
  ∧ config (snd (init this w)) = config w
  ∧ downloads (trace (snd (init this w))) = downloads (trace w)
  ∧ (binary_exists this (files w) = false ->
     Debug "Can not get mkcert information, update skipped" []
       ∈ trace (snd (init this w))).
Proof.
  intros Hsource.
  assert (Hupdate : ∀ b w,
    updateMkcert this b w =
      (Resolve tt,
       mkWorld (files w) (config w)
         (trace w ++ [GetSourceInfo] ++ source_diagnostics (sourceType this)
            ++ [Debug "Can not get mkcert information, update skipped" []]))).
  { intros b w0. unfold updateMkcert, source_getSourceInfo, source_diagnostics.
    await. rewrite Hsource.
    destruct (sourceType this); await; by rewrite <- ?app_assoc. }
  split; [apply Hupdate|].
  unfold init, config_init. await. rewrite checkMkcert_run.
  assert (Hcheck : downloads (check_trace this) = 0).
  { unfold check_trace. by destruct (JS.truthy _). }
  assert (Hdiag : downloads (source_diagnostics (sourceType this)) = 0).
  { unfold source_diagnostics. by destruct (sourceType this). }
  destruct (JS.truthy_bool (autoUpgrade this) || negb (binary_exists this (files w)))
    eqn:Hgo.
  - rewrite Hupdate. cbn [fst snd files config trace].
    rewrite !downloads_app, Hcheck, Hdiag.
    change (downloads [Debug _ _]) with 0.
    change (downloads [GetSourceInfo]) with 0.
    repeat split; try done; try lia.
    intros _. rewrite !elem_of_app. right. right. right. set_solver.
  - await. rewrite downloads_app, Hcheck.
    repeat split; try done; try lia.
    intros Hex. rewrite Hex, orb_true_r in Hgo. done.
Qed.

(** C8.  The binary does not exist and the source answered.
    [updateMkcert] starts the download to the managed path whatever the
    version manager would say, the run being the same under any two of
    them; when the download succeeds, the version persisted is the one the
    source reported, and a failed download is handed on with the persisted
    version as it was. *)
Theorem updateMkcert_downloads_when_absent (V1 V2 : VersionPolicy) (this : Mkcert)
    (w : World) (sourceInfo : SourceInfo) :
  getSourceInfo (source this) = Resolve (Some sourceInfo) ->
  let url := downloadUrl sourceInfo in
  let t :=
    trace w ++ [GetSourceInfo;
                Debug "mkcert does not exist, download it now" [];
                Download url (mkcertSavedPath this)] in
  @updateMkcert _ V1 this false w = @updateMkcert _ V2 this false w
  ∧ @updateMkcert _ V1 this false w =
      match download_effect url (mkcertSavedPath this) (files w) with
      | (Resolved, fs) =>
          (Resolve tt,
           mkWorld fs (mkConfig (Some (version sourceInfo)) (cfg_record (config w))) t)
      | (Rejected, fs) =>
          (Reject (DownloadError url (mkcertSavedPath this)), mkWorld fs (config w) t)
      end.
Proof.
  intros Hsource url t. subst url t.
  unfold updateMkcert, source_getSourceInfo, downloadMkcert, download,
    versionManger_update.
  await. rewrite Hsource. await. split; [done|].
  destruct (download_effect _ _ (files w)) as [[] fs]; await; by rewrite <- ?app_assoc.
Qed.

End Provisioning.

(** * The properties on the concrete world *)

Section Witnesses.

#[local] Existing Instance Fixture.collaborators.
#[local] Existing Instance Fixture.versions.

Import Fixture.

(** With the binary installed and nothing recorded, a request for
    [localhost] regenerates; asked again, neither check fires and the answer
    is what the two files hold. *)
Lemma install_regenerates_iff_witness :
  ["localhost"] ≠ []
  ∧ (regenerations (trace (snd (install plugin ["localhost"] installed)))
       = S (regenerations (trace installed))
     ↔ hosts_differ installed ["localhost"] ∨ hash_differs installed)
  ∧ ¬ hosts_differ settled ["localhost"]
  ∧ ¬ hash_differs settled
  ∧ fst (install plugin ["localhost"] settled) = Resolve localhost_certificate.
Proof.
  assert (Hhosts : ¬ hosts_differ settled ["localhost"]).
  { apply (bool_decide_eq_true_1 _). vm_compute. reflexivity. }
  assert (Hhash : ¬ hash_differs settled).
  { apply (bool_decide_eq_true_1 _). vm_compute. reflexivity. }
  split; [done|]. split; [|split; [exact Hhosts|split; [exact Hhash|]]].
  - exact (proj1 (install_regenerates_iff plugin ["localhost"] installed
                    ltac:(done))).
  - destruct (install_regenerates_iff plugin ["localhost"] settled ltac:(done))
      as (_ & _ & _ & _ & Hnone).
    destruct (Hnone Hhosts Hhash) as (_ & _ & ->).
    vm_compute. reflexivity.
Defined.

Lemma installed_localhost_not_rejected (cmd : string) :
  fst (install plugin ["localhost"] installed) ≠ Reject (ExecError cmd).
Proof. vm_compute. discriminate. Defined.

(** The second of two requests for [localhost] spawns nothing. *)
Lemma install_twice_regenerates_once_witness :
  ["localhost"] ≠ []
  ∧ (∀ cmd, fst (install plugin ["localhost"] installed) ≠ Reject (ExecError cmd))
  ∧ regenerations
      (trace (snd (install plugin ["localhost"]
                     (snd (install plugin ["localhost"] installed)))))
    = regenerations (trace (snd (install plugin ["localhost"] installed))).
Proof.
  split; [done|]. split; [exact installed_localhost_not_rejected|].
  exact (proj1 (proj2 (install_twice_regenerates_once plugin ["localhost"] installed
                         ltac:(done) installed_localhost_not_rejected))).
Defined.

(** The key file is overwritten between two requests for [localhost]. *)
Lemma install_detects_tampering_witness :
  ["localhost"] ≠ []
  ∧ (∀ cmd, fst (install plugin ["localhost"] installed) ≠ Reject (ExecError cmd))
  ∧ hashOf (tampered_files !! KEY_FILE_PATH)
      ≠ hashOf (files (snd (install plugin ["localhost"] installed)) !! KEY_FILE_PATH)
  ∧ regenerations
      (trace (snd (install plugin ["localhost"]
                     (set_files tampered_files
                        (snd (install plugin ["localhost"] installed))))))
    = S (regenerations (trace (snd (install plugin ["localhost"] installed)))).
Proof.
  assert (Hkey : hashOf (tampered_files !! KEY_FILE_PATH)
      ≠ hashOf (files (snd (install plugin ["localhost"] installed)) !! KEY_FILE_PATH)).
  { vm_compute. discriminate. }
  split; [done|]. split; [exact installed_localhost_not_rejected|].
  split; [exact Hkey|].
  exact (proj1 (install_detects_tampering plugin ["localhost"] installed tampered_files
                  ltac:(done) installed_localhost_not_rejected (or_introl Hkey))).
Defined.

(** Without a binary the command is rejected and nothing is recorded. *)
Lemma regenerate_failure_keeps_record_witness :
  fst (exec_effect
         (command (binary_reference plugin (files fresh)) (JS.join " " ["localhost"]))
         (files fresh)) = Rejected
  ∧ config (snd (install plugin ["localhost"] fresh)) = config fresh.
Proof.
  assert (Hrej : fst (exec_effect
         (command (binary_reference plugin (files fresh)) (JS.join " " ["localhost"]))
         (files fresh)) = Rejected) by (vm_compute; reflexivity).
  split; [exact Hrej|].
  exact (proj1 (proj2 (regenerate_failure_keeps_record plugin ["localhost"] fresh Hrej))).
Defined.

(** From v1.4.4 to v2.0.0: the upgrade is put off and both versions are
    named. *)
Lemma updateMkcert_skips_witness :
  getSourceInfo (source upgrading)
    = Resolve (Some (mkSourceInfo "v2.0.0" "https://example.org/mkcert"))
  ∧ breakingChange (compare (config installed) "v2.0.0") = true
  ∧ VersionInfo_consistent (compare (config installed) "v2.0.0")
  ∧ trace (snd (updateMkcert upgrading true installed)) =
      [GetSourceInfo;
       Debug
         "The current version of mkcert is %s, and the latest version is %s, there may be some breaking changes, update skipped"
         [Some "v1.4.4"; Some "v2.0.0"]].
Proof.
  assert (Hbreak : breakingChange (compare (config installed) "v2.0.0") = true)
    by (vm_compute; reflexivity).
  assert (Hok : VersionInfo_consistent (compare (config installed) "v2.0.0"))
    by (intros _; vm_compute; reflexivity).
  split; [reflexivity|]. split; [exact Hbreak|]. split; [exact Hok|].
  exact (proj2 (proj2 (updateMkcert_skips upgrading installed
                         (mkSourceInfo "v2.0.0" "https://example.org/mkcert")
                         eq_refl)) Hbreak Hok).
Defined.

(** Nothing installed and the source unreachable: [init] completes. *)
Lemma updateMkcert_without_source_witness :
  getSourceInfo (source mirror) = Resolve None
  ∧ fst (init mirror fresh) = Resolve tt
  ∧ files (snd (init mirror fresh)) = files fresh.
Proof.
  split; [reflexivity|].
  pose proof (updateMkcert_without_source mirror fresh false eq_refl)
    as (_ & Hinit & Hfiles & _).
  exact (conj Hinit Hfiles).
Defined.

(** Nothing installed: the binary is downloaded and v1.4.4 persisted. *)
Lemma updateMkcert_downloads_when_absent_witness :
  getSourceInfo (source plugin)
    = Resolve (Some (mkSourceInfo "v1.4.4" "https://github.com/mkcert"))
  ∧ cfg_version (config (snd (updateMkcert plugin false fresh))) = Some "v1.4.4"
  ∧ trace (snd (updateMkcert plugin false fresh)) =
      [GetSourceInfo;
       Debug "mkcert does not exist, download it now" [];
       Download "https://github.com/mkcert" "/app/node_modules/.mkcert/mkcert"].
Proof.
  split; [reflexivity|].
  rewrite (proj2 (updateMkcert_downloads_when_absent versions versions plugin fresh
                    (mkSourceInfo "v1.4.4" "https://github.com/mkcert") eq_refl)).
  split; reflexivity.
Defined.

(** The local binary is there, and the check still reports it missing. *)
Lemma checkMkcert_always_reports_missing_witness :
  mkcertLocalPath offline = Some "/usr/local/bin/mkcert"
  ∧ "/usr/local/bin/mkcert" ≠ EmptyString
  ∧ files local_installed !! "/usr/local/bin/mkcert" = Some "ELF"
  ∧ checkMkcert offline local_installed =
      (Resolve true,
       logged
         (LoggerError
            "/usr/local/bin/mkcert does not exist, please check the mkcertPath paramter")
         local_installed).
Proof.
  split; [reflexivity|]. split; [done|]. split; [reflexivity|].
  rewrite (checkMkcert_always_reports_missing offline local_installed
             "/usr/local/bin/mkcert" eq_refl ltac:(done)).
  reflexivity.
Defined.

End Witnesses.

(** * Further properties of the class *)

Section ProvisioningRuns.

Context `{Collaborators} `{VersionPolicy}.

Lemma downloads_check_trace (this : Mkcert) : downloads (check_trace this) = 0.
Proof. unfold check_trace. by destruct (JS.truthy _). Qed.

Lemma downloads_singleton (e : Event) :
  downloads [e] = if is_download e then 1 else 0.
Proof. by destruct e. Qed.

Lemma source_calls_app (a b : list Event) :
  source_calls (a ++ b) = source_calls a + source_calls b.
Proof. unfold source_calls. by rewrite filter_app, length_app. Qed.

Lemma source_calls_check_trace (this : Mkcert) : source_calls (check_trace this) = 0.
Proof. unfold check_trace. by destruct (JS.truthy _). Qed.

Lemma regenerations_cons (e : Event) (t : list Event) :
  regenerations (e :: t) = (if is_exec e then 1 else 0) + regenerations t.
Proof. by rewrite <- regenerations_singleton, <- regenerations_app. Qed.

Lemma downloads_cons (e : Event) (t : list Event) :
  downloads (e :: t) = (if is_download e then 1 else 0) + downloads t.
Proof. by rewrite <- downloads_singleton, <- downloads_app. Qed.

Lemma init_run (this : Mkcert) (w : World) :
  init this w =
    let w0 := mkWorld (files w) (config w) (trace w ++ check_trace this) in
    if JS.truthy_bool (autoUpgrade this) || negb (binary_exists this (files w))
    then updateMkcert this (binary_exists this (files w)) w0
    else (Resolve tt, w0).
Proof.
  unfold init, config_init. await. rewrite checkMkcert_run.
  by destruct (JS.truthy_bool (autoUpgrade this) || negb (binary_exists this (files w))).
Qed.

(** What [updateMkcert] can come to: it returns after diagnostics only, it
    has started one download to the managed path, or the source's promise
    was rejected. *)
Lemma updateMkcert_cases (this : Mkcert) (mkcertExist : bool) (w : World) :
  (∃ diag, regenerations diag = 0 ∧ downloads diag = 0
           ∧ updateMkcert this mkcertExist w
               = (Resolve tt, mkWorld (files w) (config w) (trace w ++ diag)))
  ∨ (∃ sourceInfo diag v,
       getSourceInfo (source this) = Resolve (Some sourceInfo)
       ∧ regenerations diag = 0 ∧ downloads diag = 0
       ∧ updateMkcert this mkcertExist w =
           let url := downloadUrl sourceInfo in
           let t := trace w ++ diag ++ [Download url (mkcertSavedPath this)] in
           match download_effect url (mkcertSavedPath this) (files w) with
           | (Resolved, fs) =>
               (Resolve tt, mkWorld fs (mkConfig (Some v) (cfg_record (config w))) t)
           | (Rejected, fs) =>
               (Reject (DownloadError url (mkcertSavedPath this)),
                mkWorld fs (config w) t)
           end)
  ∨ (∃ e,
       getSourceInfo (source this) = Reject e
       ∧ updateMkcert this mkcertExist w
           = (Reject e, mkWorld (files w) (config w) (trace w ++ [GetSourceInfo]))).
Proof.
  unfold updateMkcert, source_getSourceInfo. await.
  destruct (getSourceInfo (source this)) as [[sourceInfo|]|e] eqn:Hsource.
  - destruct mkcertExist.
    + await.
      destruct (compare (config w) (version sourceInfo)) as [cur next breaking update].
      simpl. destruct update; simpl; [destruct breaking; simpl|].
      * left.
        exists [GetSourceInfo;
                Debug
                  "The current version of mkcert is %s, and the latest version is %s, there may be some breaking changes, update skipped"
                  [cur; Some next]].
        repeat split; [done..|]. await. by rewrite <- ?app_assoc.
      * right. left. exists sourceInfo.
        exists [GetSourceInfo;
                Debug
                  "The current version of mkcert is %s, and the latest version is %s, mkcert will be updated"
                  [cur; Some next]].
        exists next. repeat split; [done..|].
        unfold downloadMkcert, download, versionManger_update. await.
        destruct (download_effect _ _ (files w)) as [[] fs]; await;
          by rewrite <- ?app_assoc.
      * left.
        exists [GetSourceInfo; Debug "Mkcert is kept latest version, update skipped" []].
        repeat split; [done..|]. await. by rewrite <- ?app_assoc.
    + right. left. exists sourceInfo.
      exists [GetSourceInfo; Debug "mkcert does not exist, download it now" []].
      exists (version sourceInfo). repeat split; [done..|].
      unfold downloadMkcert, download, versionManger_update. await.
      destruct (download_effect _ _ (files w)) as [[] fs]; await;
        by rewrite <- ?app_assoc.
  - left. exists ([GetSourceInfo] ++ source_diagnostics (sourceType this)
                    ++ [Debug "Can not get mkcert information, update skipped" []]).
    split; [|split].
    + unfold source_diagnostics. by destruct (sourceType this).
    + unfold source_diagnostics. by destruct (sourceType this).
    + unfold source_diagnostics.
      destruct (sourceType this); await; by rewrite <- ?app_assoc.
  - right. right. by exists e.
Qed.

End ProvisioningRuns.

Section InstallRuns.

Context `{Collaborators} `{VersionPolicy}.

Lemma getCertificate_files (w1 w2 : World) :
  files w1 = files w2 -> fst (getCertificate w1) = fst (getCertificate w2).
Proof. intros Hfiles. by rewrite !getCertificate_run, Hfiles. Qed.

Lemma downloads_generation_trace (this : Mkcert) fs hosts cmd :
  downloads (generation_trace this fs hosts cmd) = 0.
Proof.
  unfold generation_trace, missing_diagnostic.
  rewrite !downloads_app, downloads_check_trace.
  by destruct (JS.truthy _).
Qed.

(** What [install] can come to: the certificate is read from the files as
    they were, or the generation command was spawned once. *)
Lemma install_cases (this : Mkcert) (hosts : list string) (w : World) :
  (∃ diag, regenerations diag = 0 ∧ downloads diag = 0
           ∧ install this hosts w
               = (fst (getCertificate w),
                  mkWorld (files w) (config w) (trace w ++ diag)))
  ∨ (∃ msg,
       hosts ≠ []
       ∧ install this hosts w =
           let cmd := command (binary_reference this (files w)) (JS.join " " hosts) in
           let t :=
             trace w ++ [LoggerInfo msg] ++ generation_trace this (files w) hosts cmd in
           match exec_effect cmd (files w) with
           | (Resolved, fs) =>
               let w' :=
                 mkWorld fs
                   (mkConfig (cfg_version (config w))
                      (Some (mkRecordMate hosts (live_hash fs))))
                   (t ++ [LoggerInfo saved_message]) in
               (fst (getCertificate w'), w')
           | (Rejected, fs) => (Reject (ExecError cmd), mkWorld fs (config w) t)
           end).
Proof.
  destruct hosts as [|h hosts].
  { left. exists []. repeat split; [done..|].
    unfold install. await. rewrite getCertificate_run. simpl.
    by rewrite app_nil_r, World_eta. }
  pose proof (install_world this (h :: hosts) w ltac:(done)) as Hworld.
  pose proof (install_result this (h :: hosts) w ltac:(done)) as Hresult.
  assert (Hcases :
    (∃ msg, renew this (h :: hosts) w
              = regenerate this (h :: hosts) (logged (LoggerInfo msg) w))
    ∨ renew this (h :: hosts) w =
        (Resolve tt,
         logged
           (Debug "Neither hosts nor hash has changed, skip regenerate certificate" [])
           w)).
  { destruct (decide (hosts_differ w (h :: hosts))) as [Hh|Hh].
    - left. eexists. by apply renew_hosts_differ.
    - destruct (decide (hash_differs w)) as [Ht|Ht].
      + left. eexists. by apply renew_tampered.
      + right. by apply renew_unchanged. }
  destruct Hcases as [(msg & Hrun)|Hrun]; rewrite Hrun in *.
  - right. exists msg. split; [done|].
    rewrite regenerate_run in *. simpl in *.
    destruct (exec_effect _ (files w)) as [[] fs]; simpl in *.
    + rewrite (surjective_pairing (install this (h :: hosts) w)), Hworld, Hresult.
      by rewrite <- !app_assoc.
    + rewrite (surjective_pairing (install this (h :: hosts) w)), Hworld, Hresult.
      by rewrite <- !app_assoc.
  - left.
    exists [Debug "Neither hosts nor hash has changed, skip regenerate certificate" []].
    do 2 (split; [done|]).
    rewrite (surjective_pairing (install this (h :: hosts) w)), Hworld, Hresult.
    simpl. f_equal. by apply getCertificate_files.
Qed.

End InstallRuns.

Section ClassProperties.

Context `{Collaborators} `{VersionPolicy}.

(** X1.  The binary exists, the source answered and the comparison asks
    for an update that is not breaking.  [updateMkcert] announces both
    versions and downloads to the managed path; behind a successful download
    it persists the next version of the comparison, and a rejected download
    is handed on with the persisted version as it was. *)
Theorem updateMkcert_upgrades (this : Mkcert) (w : World) (sourceInfo : SourceInfo) :
  getSourceInfo (source this) = Resolve (Some sourceInfo) ->
  let versionInfo := compare (config w) (version sourceInfo) in
  shouldUpdate versionInfo = true ->
  breakingChange versionInfo = false ->
  let url := downloadUrl sourceInfo in
  let t :=
    trace w
      ++ [GetSourceInfo;
          Debug
            "The current version of mkcert is %s, and the latest version is %s, mkcert will be updated"
            [currentVersion versionInfo; Some (nextVersion versionInfo)];
          Download url (mkcertSavedPath this)] in
  updateMkcert this true w =
    match download_effect url (mkcertSavedPath this) (files w) with
    | (Resolved, fs) =>
        (Resolve tt,
         mkWorld fs
           (mkConfig (Some (nextVersion versionInfo)) (cfg_record (config w))) t)
    | (Rejected, fs) =>
        (Reject (DownloadError url (mkcertSavedPath this)), mkWorld fs (config w) t)
    end.
Proof.
  intros Hsource versionInfo Hupdate Hbreaking url t. subst versionInfo url t.
  unfold updateMkcert, source_getSourceInfo, downloadMkcert, download,
    versionManger_update.
  await. rewrite Hsource. await.
  destruct (compare (config w) (version sourceInfo)) as [cur next breaking update].
  simpl in *. subst update breaking. await.
  destruct (download_effect _ _ (files w)) as [[] fs]; await; by rewrite <- ?app_assoc.
Qed.

(** X2.  With the binary in place and [autoUpgrade] not set, [init] only
    checks for the binary: the source is not asked, nothing is downloaded
    and nothing is persisted. *)
Theorem init_skips_when_present (this : Mkcert) (w : World) :
  binary_exists this (files w) = true ->
  JS.truthy_bool (autoUpgrade this) = false ->
  init this w =
    (Resolve tt, mkWorld (files w) (config w) (trace w ++ check_trace this))
  ∧ downloads (trace (snd (init this w))) = downloads (trace w)
  ∧ source_calls (trace (snd (init this w))) = source_calls (trace w).
Proof.
  intros Hexists Hauto. rewrite init_run, Hexists, Hauto. simpl.
  split; [done|].
  rewrite downloads_app, downloads_check_trace, source_calls_app,
    source_calls_check_trace.
  lia.
Qed.

(** X3.  [getMkcertBinnary] prefers the local path without condition: with
    a local path configured it answers that path or nothing, whatever is at
    the managed path; with none, or with the empty string, it answers the
    managed path or nothing. *)
Theorem getMkcertBinnary_precedence (this : Mkcert) (w : World) :
  (∀ localPath,
     mkcertLocalPath this = Some localPath -> localPath ≠ EmptyString ->
     fst (getMkcertBinnary this w) =
       Resolve (if bool_decide (is_Some (files w !! localPath))
                then Some localPath else None))
  ∧ (mkcertLocalPath this = None ∨ mkcertLocalPath this = Some EmptyString ->
     fst (getMkcertBinnary this w) =
       Resolve (if bool_decide (is_Some (files w !! mkcertSavedPath this))
                then Some (mkcertSavedPath this) else None)).
Proof.
  rewrite getMkcertBinnary_run. simpl.
  unfold binary_reference, binary_exists, binary_path, JS.or_else. split.
  - intros localPath -> Hne. simpl.
    by destruct (decide (localPath = EmptyString)).
  - by intros [->| ->].
Qed.


(** X5.  [init] fails in two ways only.  The promise of the source was
    rejected: [init] hands that error on, with no download started and
    files and configuration as they were.  Or the source answered and the
    download to the managed path was rejected: nothing was persisted
    then. *)
Theorem init_failure_modes (this : Mkcert) (w : World) (e : Error) :
  fst (init this w) = Reject e ->
  let w' := snd (init this w) in
  (getSourceInfo (source this) = Reject e
   ∧ downloads (trace w') = downloads (trace w)
   ∧ files w' = files w ∧ config w' = config w)
  ∨ (∃ sourceInfo,
       getSourceInfo (source this) = Resolve (Some sourceInfo)
       ∧ e = DownloadError (downloadUrl sourceInfo) (mkcertSavedPath this)
       ∧ fst (download_effect (downloadUrl sourceInfo) (mkcertSavedPath this) (files w))
           = Rejected
       ∧ config w' = config w).
Proof.
  intros Hrej w'. subst w'. revert Hrej. rewrite init_run. simpl.
  pose proof (downloads_check_trace this) as Hd.
  destruct (JS.truthy_bool (autoUpgrade this) || negb (binary_exists this (files w)));
    [|done].
  destruct (updateMkcert_cases this (binary_exists this (files w))
              (mkWorld (files w) (config w) (trace w ++ check_trace this)))
    as [(diag & _ & _ & ->)
       |[(sourceInfo & diag & v & Hsource & _ & _ & ->)|(e' & Hsource & ->)]];
    simpl; [done| |].
  - destruct (download_effect _ _ (files w)) as [[] fs] eqn:Hdl; simpl; [done|].
    intros [= <-]. right. exists sourceInfo. by rewrite Hdl.
  - intros [= <-]. left. split; [done|].
    rewrite !downloads_app, Hd. change (downloads [GetSourceInfo]) with 0.
    repeat split; lia.
Qed.

(** X6.  [install] never starts a download and spawns the generation
    command at most once; when it spawns nothing, files and configuration
    are what they were. *)
Theorem install_never_provisions (this : Mkcert) (hosts : list string) (w : World) :
  let w' := snd (install this hosts w) in
  downloads (trace w') = downloads (trace w)
  ∧ regenerations (trace w') ≤ S (regenerations (trace w))
  ∧ (regenerations (trace w') = regenerations (trace w) ->
     files w' = files w ∧ config w' = config w).
Proof.
  intros w'. subst w'.
  destruct (install_cases this hosts w) as [(diag & Hr & Hd & ->)|(msg & _ & ->)]; simpl.
  - rewrite regenerations_app, downloads_app. repeat split; lia.
  - destruct (exec_effect _ (files w)) as [[] fs]; simpl;
      rewrite ?regenerations_app, ?downloads_app, ?regenerations_cons, ?downloads_cons,
        ?regenerations_app, ?downloads_app, regenerations_generation_trace,
        downloads_generation_trace;
      change (regenerations [LoggerInfo _]) with 0;
      change (downloads [LoggerInfo _]) with 0;
      change (regenerations []) with 0; change (downloads []) with 0;
      simpl; repeat split; try lia.
Qed.

(** X7.  [install] fails in three ways only: the generation command was
    rejected, or the key file, or else the certificate file, is not there to
    be read afterwards. *)
Theorem install_failure_modes (this : Mkcert) (hosts : list string) (w : World)
    (e : Error) :
  fst (install this hosts w) = Reject e ->
  let w' := snd (install this hosts w) in
  let cmd := command (binary_reference this (files w)) (JS.join " " hosts) in
  (e = ExecError cmd ∧ fst (exec_effect cmd (files w)) = Rejected)
  ∨ (e = ReadError KEY_FILE_PATH ∧ files w' !! KEY_FILE_PATH = None)
  ∨ (e = ReadError CERT_FILE_PATH ∧ files w' !! CERT_FILE_PATH = None).
Proof.
  intros Hrej w' cmd. subst w' cmd. revert Hrej.
  assert (Hread : ∀ w1,
    fst (getCertificate w1) = Reject e ->
    (e = ReadError KEY_FILE_PATH ∧ files w1 !! KEY_FILE_PATH = None)
    ∨ (e = ReadError CERT_FILE_PATH ∧ files w1 !! CERT_FILE_PATH = None)).
  { intros w1. rewrite getCertificate_run. simpl.
    destruct (files w1 !! KEY_FILE_PATH); [|intros [= <-]; by left].
    destruct (files w1 !! CERT_FILE_PATH); [done|intros [= <-]; by right]. }
  destruct (install_cases this hosts w) as [(diag & _ & _ & ->)|(msg & _ & ->)]; simpl.
  - intros Hrej. right. by apply (Hread w).
  - destruct (exec_effect _ (files w)) as [[] fs] eqn:Hexec; simpl.
    + intros Hrej. right. by apply Hread in Hrej.
    + intros [= <-]. by left.
Qed.

(** X8.  The certificate [install] resolves with is the content of the two
    files as the call leaves them. *)
Theorem install_returns_disk_content (this : Mkcert) (hosts : list string) (w : World)
    (c : Certificate) :
  fst (install this hosts w) = Resolve c ->
  files (snd (install this hosts w)) !! KEY_FILE_PATH = Some (key c)
  ∧ files (snd (install this hosts w)) !! CERT_FILE_PATH = Some (cert c).
Proof.
  assert (Hread : ∀ w1,
    fst (getCertificate w1) = Resolve c ->
    files w1 !! KEY_FILE_PATH = Some (key c)
    ∧ files w1 !! CERT_FILE_PATH = Some (cert c)).
  { intros w1. rewrite getCertificate_run. simpl.
    destruct (files w1 !! KEY_FILE_PATH); [|done].
    destruct (files w1 !! CERT_FILE_PATH); [|done]. by intros [= <-]. }
  destruct (install_cases this hosts w) as [(diag & _ & _ & ->)|(msg & _ & ->)]; simpl.
  - apply (Hread w).
  - destruct (exec_effect _ (files w)) as [[] fs]; simpl; [|done].
    intros Hres. by apply Hread in Hres.
Qed.

(** X9.  Behind a successful generation command [regenerate] resolves, the
    files are those the command left, the record holds the hosts as they
    were passed and the hash of those files, and the notice of the saved
    certificate closes the trace. *)
Theorem regenerate_success_records (this : Mkcert) (hosts : list string) (w : World)
    (fs : gmap string string) :
  exec_effect (command (binary_reference this (files w)) (JS.join " " hosts)) (files w)
    = (Resolved, fs) ->
  let w' := snd (regenerate this hosts w) in
  fst (regenerate this hosts w) = Resolve tt
  ∧ files w' = fs
  ∧ cfg_record (config w')
      = Some (mkRecordMate hosts
                (mkRecordHash (hashOf (fs !! KEY_FILE_PATH))
                   (hashOf (fs !! CERT_FILE_PATH))))
  ∧ last (trace w') = Some (LoggerInfo saved_message).
Proof.
  intros Hexec w'. subst w'. rewrite regenerate_run. simpl. rewrite Hexec. simpl.
  repeat split. by rewrite last_snoc.
Qed.

End ClassProperties.

Section InitProperties.

Context `{Collaborators} `{VersionPolicy}.

Lemma updateMkcert_absent_run (this : Mkcert) (w : World) (sourceInfo : SourceInfo) :
  getSourceInfo (source this) = Resolve (Some sourceInfo) ->
  updateMkcert this false w =
    let url := downloadUrl sourceInfo in
    let t :=
      trace w ++ [GetSourceInfo;
                  Debug "mkcert does not exist, download it now" [];
                  Download url (mkcertSavedPath this)] in
    match download_effect url (mkcertSavedPath this) (files w) with
    | (Resolved, fs) =>
        (Resolve tt,
         mkWorld fs (mkConfig (Some (version sourceInfo)) (cfg_record (config w))) t)
    | (Rejected, fs) =>
        (Reject (DownloadError url (mkcertSavedPath this)), mkWorld fs (config w) t)
    end.
Proof.
  intros Hsource.
  unfold updateMkcert, source_getSourceInfo, downloadMkcert, download,
    versionManger_update.
  await. rewrite Hsource. await.
  destruct (download_effect _ _ (files w)) as [[] fs]; await; by rewrite <- ?app_assoc.
Qed.

(** X10.  No local path is configured, the binary is missing, the source
    answers and the download puts a file at the managed path.  [init]
    resolves with the source's version persisted, [getMkcertBinnary] then
    answers the managed path, and without [autoUpgrade] a second [init]
    changes nothing at all. *)
Theorem init_provisions_binary (this : Mkcert) (w : World) (sourceInfo : SourceInfo)
    (fs : gmap string string) :
  JS.truthy (mkcertLocalPath this) = None ->
  binary_exists this (files w) = false ->
  getSourceInfo (source this) = Resolve (Some sourceInfo) ->
  download_effect (downloadUrl sourceInfo) (mkcertSavedPath this) (files w)
    = (Resolved, fs) ->
  is_Some (fs !! mkcertSavedPath this) ->
  let w1 := snd (init this w) in
  fst (init this w) = Resolve tt
  ∧ files w1 = fs
  ∧ cfg_version (config w1) = Some (version sourceInfo)
  ∧ fst (getMkcertBinnary this w1) = Resolve (Some (mkcertSavedPath this))
  ∧ (JS.truthy_bool (autoUpgrade this) = false -> init this w1 = (Resolve tt, w1)).
Proof.
  intros Hlocal Hmissing Hsource Hdl Hfile w1. subst w1.
  assert (Hpath : binary_path this = mkcertSavedPath this).
  { unfold binary_path, JS.or_else. by rewrite Hlocal. }
  assert (Hcheck : check_trace this = []).
  { unfold check_trace. by rewrite Hlocal. }
  assert (Hexists : binary_exists this fs = true).
  { unfold binary_exists. rewrite Hpath. by apply bool_decide_eq_true_2. }
  rewrite init_run, Hmissing, orb_true_r. simpl.
  rewrite (updateMkcert_absent_run _ _ sourceInfo) by done. simpl.
  rewrite Hdl. simpl.
  split; [done|]. split; [done|]. split; [done|]. split.
  - rewrite getMkcertBinnary_run. simpl.
    unfold binary_reference. by rewrite Hexists, Hpath.
  - intros Hauto. rewrite init_run. simpl.
    by rewrite Hexists, Hauto, Hcheck, !app_nil_r.
Qed.

(** X11.  A local path is configured and nothing is there.  [init] still
    downloads, to the managed path; as long as nothing appears at the local
    path, [getMkcertBinnary] keeps answering nothing, also with the
    downloaded binary at the managed path. *)
Theorem init_downloads_beside_local_path (this : Mkcert) (w : World)
    (localPath : string) (sourceInfo : SourceInfo) (fs : gmap string string) :
  mkcertLocalPath this = Some localPath ->
  localPath ≠ EmptyString ->
  files w !! localPath = None ->
  getSourceInfo (source this) = Resolve (Some sourceInfo) ->
  download_effect (downloadUrl sourceInfo) (mkcertSavedPath this) (files w)
    = (Resolved, fs) ->
  fs !! localPath = None ->
  let w1 := snd (init this w) in
  fst (init this w) = Resolve tt
  ∧ files w1 = fs
  ∧ Download (downloadUrl sourceInfo) (mkcertSavedPath this) ∈ trace w1
  ∧ fst (getMkcertBinnary this w1) = Resolve None.
Proof.
  intros Hlocal Hne Hgone Hsource Hdl Hstill w1. subst w1.
  assert (Hpath : binary_path this = localPath).
  { unfold binary_path, JS.or_else. rewrite Hlocal. simpl.
    by destruct (decide (localPath = EmptyString)). }
  assert (Hmissing : ∀ fs0, fs0 !! localPath = None -> binary_exists this fs0 = false).
  { intros fs0 Hfs0. unfold binary_exists. rewrite Hpath, Hfs0.
    apply bool_decide_eq_false_2. by intros [? ?]. }
  rewrite init_run, (Hmissing _ Hgone), orb_true_r. simpl.
  rewrite (updateMkcert_absent_run _ _ sourceInfo) by done. simpl.
  rewrite Hdl. simpl.
  split; [done|]. split; [done|]. split.
  - rewrite !elem_of_app. right. set_solver.
  - rewrite getMkcertBinnary_run. simpl.
    unfold binary_reference. by rewrite (Hmissing _ Hstill).
Qed.

Lemma not_download_in (t : list Event) (url dist : string) :
  downloads t = 0 -> Download url dist ∉ t.
Proof.
  intros Hd Hin. revert Hd. unfold downloads.
  apply list_elem_of_split in Hin as (l1 & l2 & ->).
  rewrite filter_app, filter_cons_True, length_app by done. simpl. lia.
Qed.

(** X16.  Whatever the options a [Mkcert] is created with, a download
    started by its [init] takes the URL the selected source answered, the
    GitHub source when none is selected, and goes to the managed path,
    [mkcert.exe] on win32 and [mkcert] elsewhere; a configured [mkcertPath]
    does not change where the download goes. *)
Theorem create_download_target (options : MkcertOptions) (w : World) :
  let selected :=
    match opt_source options with
    | None | Some github => GithubSource_create
    | Some coding => CodingSource_create
    | Some (custom s) => s
    end in
  let managed :=
    resolvePath (if decide (platform = "win32") then "mkcert.exe" else "mkcert") in
  ∃ rest,
    trace (snd (init (create options) w)) = trace w ++ rest
    ∧ ∀ url dist, Download url dist ∈ rest ->
        dist = managed
        ∧ ∃ sourceInfo,
            getSourceInfo selected = Resolve (Some sourceInfo)
            ∧ url = downloadUrl sourceInfo.
Proof.
  intros selected managed.
  assert (Hsource : source (create options) = selected).
  { unfold selected, create. simpl.
    by destruct (opt_source options) as [[| |s]|]. }
  assert (Hsaved : mkcertSavedPath (create options) = managed) by reflexivity.
  remember (create options) as this eqn:Hthis. clear Hthis.
  rewrite init_run. simpl.
  pose proof (downloads_check_trace this) as Hd.
  destruct (JS.truthy_bool (autoUpgrade this) || negb (binary_exists this (files w))).
  - destruct (updateMkcert_cases this (binary_exists this (files w))
                (mkWorld (files w) (config w) (trace w ++ check_trace this)))
      as [(diag & _ & Hdd & ->)
         |[(sourceInfo & diag & v & Hinfo & _ & Hdd & ->)|(e & _ & ->)]];
      simpl.
    + exists (check_trace this ++ diag). rewrite <- app_assoc. split; [done|].
      intros url dist Hin.
      destruct (not_download_in (check_trace this ++ diag) url dist); [|done].
      rewrite downloads_app. lia.
    + exists (check_trace this ++ diag
                ++ [Download (downloadUrl sourceInfo) (mkcertSavedPath this)]).
      split.
      { destruct (download_effect _ _ (files w)) as [[] fs]; simpl;
          by rewrite <- !app_assoc. }
      intros url dist. rewrite !elem_of_app, list_elem_of_singleton.
      intros [Hin|[Hin|[= -> ->]]].
      * by destruct (not_download_in _ url dist Hd).
      * by destruct (not_download_in _ url dist Hdd).
      * split; [done|]. exists sourceInfo. by rewrite <- Hsource.
    + exists (check_trace this ++ [GetSourceInfo]). rewrite <- app_assoc.
      split; [done|]. intros url dist Hin.
      destruct (not_download_in (check_trace this ++ [GetSourceInfo]) url dist);
        [|done].
      rewrite downloads_app, Hd. done.
  - exists (check_trace this). split; [done|].
    intros url dist Hin. by destruct (not_download_in _ url dist Hd).
Qed.

End InitProperties.

(** * Properties of the plugin *)

Lemma elem_of_Set_add (s : list string) (x y : string) :
  y ∈ Set_add s x ↔ y ∈ s ∨ y = x.
Proof.
  unfold Set_add. destruct (decide (x ∈ s)).
  - split; [by left|]. by intros [?| ->].
  - rewrite elem_of_app, list_elem_of_singleton. done.
Qed.

Lemma NoDup_Set_add (s : list string) (x : string) : NoDup s -> NoDup (Set_add s x).
Proof.
  intros Hs. unfold Set_add. destruct (decide (x ∈ s)); [done|].
  apply NoDup_app. split; [done|]. split; [|apply NoDup_singleton].
  intros y Hy ->%list_elem_of_singleton. done.
Qed.

Lemma elem_of_foldl_Set_add (l acc : list string) (y : string) :
  y ∈ foldl Set_add acc l ↔ y ∈ acc ∨ y ∈ l.
Proof.
  revert acc. induction l as [|x l IH]; intros acc; simpl.
  - rewrite elem_of_nil. tauto.
  - rewrite IH, elem_of_Set_add, elem_of_cons. tauto.
Qed.

Lemma NoDup_foldl_Set_add (l acc : list string) :
  NoDup acc -> NoDup (foldl Set_add acc l).
Proof.
  revert acc. induction l as [|x l IH]; intros acc Hacc; simpl; [done|].
  by apply IH, NoDup_Set_add.
Qed.

Lemma foldl_Set_add_fresh (l acc : list string) :
  NoDup l -> (∀ x, x ∈ l -> x ∉ acc) -> foldl Set_add acc l = acc ++ l.
Proof.
  revert acc. induction l as [|x l IH]; intros acc Hl Hfresh; simpl.
  - by rewrite app_nil_r.
  - apply NoDup_cons in Hl as [Hx Hl].
    unfold Set_add at 2. destruct (decide (x ∈ acc)) as [Hin|_].
    { destruct (Hfresh x); [by left|done]. }
    rewrite IH; [by rewrite <- app_assoc|done|].
    intros y Hy. rewrite elem_of_app, list_elem_of_singleton.
    intros [Hacc| ->]; [|done]. destruct (Hfresh y); [by right|done].
Qed.

(** X12.  [Array.from(new Set(hosts))] holds every host of the list once:
    it has no duplicates and the members of the list, it is the list when
    that has no duplicates, and going through the list from the left a host
    seen before is dropped and a new one is put at the end. *)
Theorem Array_from_Set_unique (hosts : list string) :
  NoDup (Array_from_Set hosts)
  ∧ (∀ x, x ∈ Array_from_Set hosts ↔ x ∈ hosts)
  ∧ (NoDup hosts -> Array_from_Set hosts = hosts)
  ∧ (∀ x, Array_from_Set (hosts ++ [x]) =
          if decide (x ∈ hosts) then Array_from_Set hosts
          else Array_from_Set hosts ++ [x])
  ∧ Array_from_Set (Array_from_Set hosts) = Array_from_Set hosts.
Proof.
  unfold Array_from_Set, new_Set.
  assert (Hmem : ∀ x, x ∈ foldl Set_add [] hosts ↔ x ∈ hosts).
  { intros x. rewrite elem_of_foldl_Set_add, elem_of_nil. tauto. }
  assert (Hnodup : NoDup (foldl Set_add [] hosts)).
  { apply NoDup_foldl_Set_add, NoDup_nil_2. }
  assert (Hid : ∀ l, NoDup l -> foldl Set_add [] l = l).
  { intros l Hl. rewrite foldl_Set_add_fresh; [done..|].
    intros x _. apply not_elem_of_nil. }
  split; [done|]. split; [done|]. split; [apply Hid|]. split; [|by apply Hid].
  intros x. rewrite foldl_app. simpl. unfold Set_add at 1.
  destruct (decide (x ∈ foldl Set_add [] hosts)) as [Hin|Hin],
    (decide (x ∈ hosts)) as [Hin'|Hin']; try done.
  - by apply Hmem in Hin.
  - by apply Hmem in Hin'.
Qed.

Section PluginProperties.

Context `{Collaborators} `{VersionPolicy} `{HostUtil}.

Lemma plugin_config_run (options : ViteCertificateOptions) (config : UserConfig)
    (w : World) :
  https_truthy config = true ->
  plugin_config options config w =
    let mkcert := create (vite_mkcertOptions options) in
    let hosts :=
      match vite_hosts options with
      | Some hosts => hosts
      | None => getDefaultHosts
      end in
    match init mkcert w with
    | (Resolve _, w1) =>
        match install mkcert (Array_from_Set hosts) w1 with
        | (Resolve c, w2) => (Resolve (Some c), w2)
        | (Reject e, w2) => (Reject e, w2)
        end
    | (Reject e, w1) => (Reject e, w1)
    end.
Proof.
  intros Hhttps. unfold plugin_config. rewrite Hhttps. await.
  destruct (init _ w) as [[[]|e] w1]; [|done].
  by destruct (install _ _ w1) as [[c|e] w2].
Qed.

Lemma init_trace (this : Mkcert) (w : World) :
  ∃ rest,
    trace (snd (init this w)) = trace w ++ rest
    ∧ regenerations rest = 0 ∧ downloads rest ≤ 1.
Proof.
  rewrite init_run. simpl.
  pose proof (regenerations_check_trace this) as Hr.
  pose proof (downloads_check_trace this) as Hd.
  destruct (JS.truthy_bool (autoUpgrade this) || negb (binary_exists this (files w))).
  - destruct (updateMkcert_cases this (binary_exists this (files w))
                (mkWorld (files w) (config w) (trace w ++ check_trace this)))
      as [(diag & Hdr & Hdd & ->)
         |[(sourceInfo & diag & v & _ & Hdr & Hdd & ->)|(e & _ & ->)]];
      simpl.
    + exists (check_trace this ++ diag). rewrite <- app_assoc.
      rewrite regenerations_app, downloads_app. repeat split; lia.
    + exists (check_trace this ++ diag
                ++ [Download (downloadUrl sourceInfo) (mkcertSavedPath this)]).
      rewrite !regenerations_app, !downloads_app, Hr, Hd, Hdr, Hdd.
      change (regenerations [Download _ _]) with 0.
      change (downloads [Download _ _]) with 1.
      destruct (download_effect _ _ (files w)) as [[] fs]; simpl;
        rewrite <- !app_assoc; repeat split; lia.
    + exists (check_trace this ++ [GetSourceInfo]). rewrite <- app_assoc.
      rewrite regenerations_app, downloads_app, Hr, Hd.
      change (regenerations [GetSourceInfo]) with 0.
      change (downloads [GetSourceInfo]) with 0.
      repeat split; lia.
  - exists (check_trace this). simpl. repeat split; lia.
Qed.

Lemma install_trace (this : Mkcert) (hosts : list string) (w : World) :
  ∃ rest,
    trace (snd (install this hosts w)) = trace w ++ rest
    ∧ regenerations rest ≤ 1 ∧ downloads rest = 0
    ∧ ∀ cmd, Exec cmd ∈ rest ->
        cmd = command (binary_reference this (files w)) (JS.join " " hosts).
Proof.
  assert (Hgen : ∀ cmd0 cmd,
    Exec cmd ∈ generation_trace this (files w) hosts cmd0 -> cmd = cmd0).
  { intros cmd0 cmd. unfold generation_trace, check_trace, missing_diagnostic.
    destruct (JS.truthy (mkcertLocalPath this)), (JS.truthy (binary_reference _ _));
      rewrite !elem_of_app, ?elem_of_cons, ?elem_of_nil; intuition congruence. }
  assert (Hinfo : ∀ cmd m, Exec cmd ∈ [LoggerInfo m] -> False).
  { intros cmd m. rewrite list_elem_of_singleton. done. }
  destruct (install_cases this hosts w) as [(diag & Hr & Hd & ->)|(msg & _ & ->)].
  - exists diag. repeat split; [lia|done|].
    intros cmd Hin. exfalso. revert Hr. unfold regenerations.
    apply list_elem_of_split in Hin as (l1 & l2 & ->).
    rewrite filter_app, filter_cons_True, length_app by done. simpl. lia.
  - cbv zeta.
    set (cmd0 := command (binary_reference this (files w)) (JS.join " " hosts)).
    destruct (exec_effect cmd0 (files w)) as [[] fs]; cbn [snd trace].
    + exists ([LoggerInfo msg] ++ generation_trace this (files w) hosts cmd0
                ++ [LoggerInfo saved_message]).
      split; [by rewrite <- !app_assoc|].
      rewrite !regenerations_app, !downloads_app, regenerations_generation_trace,
        downloads_generation_trace.
      change (regenerations [LoggerInfo _]) with 0.
      change (downloads [LoggerInfo _]) with 0.
      repeat split; [lia..|].
      intros cmd. rewrite !elem_of_app. intros [Hin|[Hin|Hin]].
      * by destruct (Hinfo _ _ Hin).
      * by apply Hgen in Hin.
      * by destruct (Hinfo _ _ Hin).
    + exists ([LoggerInfo msg] ++ generation_trace this (files w) hosts cmd0).
      split; [done|].
      rewrite !regenerations_app, !downloads_app, regenerations_generation_trace,
        downloads_generation_trace.
      change (regenerations [LoggerInfo _]) with 0.
      change (downloads [LoggerInfo _]) with 0.
      repeat split; [lia..|].
      intros cmd. rewrite !elem_of_app. intros [Hin|Hin].
      * by destruct (Hinfo _ _ Hin).
      * by apply Hgen in Hin.
Qed.

(** X13.  Without [https] in the server configuration the hook does
    nothing and answers nothing.  With it, a rejected [init] ends the hook
    with the same failure, before [install]: no generation command is
    spawned. *)
Theorem plugin_config_stops (options : ViteCertificateOptions) (config : UserConfig)
    (w : World) :
  let mkcert := create (vite_mkcertOptions options) in
  (https_truthy config = false -> plugin_config options config w = (Resolve None, w))
  ∧ (∀ e, https_truthy config = true -> fst (init mkcert w) = Reject e ->
       plugin_config options config w = (Reject e, snd (init mkcert w))
       ∧ regenerations (trace (snd (plugin_config options config w)))
           = regenerations (trace w)).
Proof.
  intros mkcert. split.
  - intros Hhttps. unfold plugin_config. by rewrite Hhttps.
  - intros e Hhttps Hinit. rewrite plugin_config_run by done. simpl. fold mkcert.
    destruct (init_trace mkcert w) as (rest & Htrace & Hr & _).
    destruct (init mkcert w) as [[[]|e'] w1]; simpl in *; [done|].
    injection Hinit as ->. split; [done|].
    rewrite Htrace, regenerations_app. lia.
Qed.

(** X14.  With [https] set, the hook spawns the generation command at most
    once and starts at most one download, and the command it spawns is for
    the configured hosts, or the default hosts when none are configured,
    each of them once. *)
Theorem plugin_config_unique_hosts (options : ViteCertificateOptions)
    (config : UserConfig) (w : World) :
  https_truthy config = true ->
  let hosts :=
    match vite_hosts options with
    | Some hosts => hosts
    | None => getDefaultHosts
    end in
  ∃ rest,
    trace (snd (plugin_config options config w)) = trace w ++ rest
    ∧ regenerations rest ≤ 1 ∧ downloads rest ≤ 1
    ∧ ∀ cmd, Exec cmd ∈ rest ->
        ∃ mkcertBinnary,
          cmd = JS.interpolate mkcertBinnary +:+ " -install -key-file "
                  +:+ resolvePath "certs/dev.key" +:+ " -cert-file "
                  +:+ resolvePath "certs/dev.pem" +:+ " "
                  +:+ String.concat " " (Array_from_Set hosts).
Proof.
  intros Hhttps hosts. rewrite plugin_config_run by done. simpl. fold hosts.
  set (mkcert := create (vite_mkcertOptions options)).
  destruct (init_trace mkcert w) as (rest1 & Htrace1 & Hr1 & Hd1).
  destruct (init mkcert w) as [[[]|e] w1]; simpl in *.
  - destruct (install_trace mkcert (Array_from_Set hosts) w1)
      as (rest2 & Htrace2 & Hr2 & Hd2 & Hcmd).
    exists (rest1 ++ rest2).
    assert (Hsnd : trace (snd (match install mkcert (Array_from_Set hosts) w1 with
                               | (Resolve c, w2) => (Resolve (Some c), w2)
                               | (Reject e, w2) => (Reject e, w2)
                               end))
                   = trace (snd (install mkcert (Array_from_Set hosts) w1))).
    { by destruct (install mkcert (Array_from_Set hosts) w1) as [[c|e] w2]. }
    rewrite Hsnd, Htrace2, Htrace1, <- app_assoc, regenerations_app, downloads_app.
    repeat split; [lia..|].
    intros cmd. rewrite elem_of_app. intros [Hin|Hin].
    + exfalso. revert Hr1. unfold regenerations.
      apply list_elem_of_split in Hin as (l1 & l2 & ->).
      rewrite filter_app, filter_cons_True, length_app by done. simpl. lia.
    + eexists. by apply Hcmd.
  - exists rest1. repeat split; [done|lia|lia|].
    intros cmd Hin. exfalso. revert Hr1. unfold regenerations.
    apply list_elem_of_split in Hin as (l1 & l2 & ->).
    rewrite filter_app, filter_cons_True, length_app by done. simpl. lia.
Qed.

(** X15.  With [https] set and the hosts configured as the empty list, the
    hook never spawns the generation command: behind [init] it answers the
    certificate on disk, and is rejected with the read error when there is
    none. *)
Theorem plugin_config_empty_hosts (options : ViteCertificateOptions)
    (config : UserConfig) (w : World) :
  https_truthy config = true ->
  vite_hosts options = Some [] ->
  let mkcert := create (vite_mkcertOptions options) in
  regenerations (trace (snd (plugin_config options config w)))
    = regenerations (trace w)
  ∧ plugin_config options config w =
      match init mkcert w with
      | (Resolve _, w1) =>
          (match files w1 !! resolvePath "certs/dev.key",
                 files w1 !! resolvePath "certs/dev.pem" with
           | Some k, Some c => Resolve (Some (mkCertificate k c))
           | None, _ => Reject (ReadError (resolvePath "certs/dev.key"))
           | Some _, None => Reject (ReadError (resolvePath "certs/dev.pem"))
           end, w1)
      | (Reject e, w1) => (Reject e, w1)
      end.
Proof.
  intros Hhttps Hhosts mkcert. rewrite plugin_config_run by done. simpl.
  rewrite Hhosts. fold mkcert.
  destruct (init_trace mkcert w) as (rest & Htrace & Hr & _).
  change (Array_from_Set []) with (@nil string).
  assert (Hinstall : ∀ w1, install mkcert [] w1 = getCertificate w1) by done.
  destruct (init mkcert w) as [[[]|e] w1]; simpl in *.
  - rewrite Hinstall, getCertificate_run. fold KEY_FILE_PATH CERT_FILE_PATH.
    destruct (files w1 !! KEY_FILE_PATH), (files w1 !! CERT_FILE_PATH); simpl;
      rewrite Htrace, regenerations_app; split; try done; lia.
  - rewrite Htrace, regenerations_app. split; [lia|done].
Qed.

End PluginProperties.

(** * The further properties on the concrete world *)

Section MoreWitnesses.

#[local] Existing Instance Fixture.collaborators.
#[local] Existing Instance Fixture.versions.
#[local] Existing Instance Fixture.hostUtil.

Import Fixture.

(** From v1.4.3 to v1.4.4: the binary is replaced and v1.4.4 persisted. *)
Lemma updateMkcert_upgrades_witness :
  getSourceInfo (source autoUpgrading)
    = Resolve (Some (mkSourceInfo "v1.4.4" "https://github.com/mkcert"))
  ∧ shouldUpdate (compare (config outdated) "v1.4.4") = true
  ∧ breakingChange (compare (config outdated) "v1.4.4") = false
  ∧ cfg_version (config (snd (updateMkcert autoUpgrading true outdated)))
      = Some "v1.4.4".
Proof.
  assert (Hupdate : shouldUpdate (compare (config outdated) "v1.4.4") = true)
    by (vm_compute; reflexivity).
  assert (Hbreaking : breakingChange (compare (config outdated) "v1.4.4") = false)
    by (vm_compute; reflexivity).
  split; [reflexivity|]. split; [exact Hupdate|]. split; [exact Hbreaking|].
  rewrite (updateMkcert_upgrades autoUpgrading outdated
             (mkSourceInfo "v1.4.4" "https://github.com/mkcert")
             eq_refl Hupdate Hbreaking).
  reflexivity.
Defined.

(** With the binary installed, [init] of the default plugin does nothing. *)
Lemma init_skips_when_present_witness :
  binary_exists plugin (files installed) = true
  ∧ JS.truthy_bool (autoUpgrade plugin) = false
  ∧ init plugin installed = (Resolve tt, installed).
Proof.
  assert (Hexists : binary_exists plugin (files installed) = true)
    by (vm_compute; reflexivity).
  split; [exact Hexists|]. split; [reflexivity|].
  rewrite (proj1 (init_skips_when_present plugin installed Hexists eq_refl)).
  reflexivity.
Defined.

(** Behind a network that lets nothing through, [init] is rejected by the
    download; with a source that throws, by the source. *)
Lemma init_failure_modes_witness :
  fst (@init unreachable versions plugin fresh)
    = Reject (DownloadError "https://github.com/mkcert" saved_binary)
  ∧ config (snd (@init unreachable versions plugin fresh)) = config fresh
  ∧ fst (init broken fresh) = Reject (SourceError "ECONNRESET")
  ∧ downloads (trace (snd (init broken fresh))) = downloads (trace fresh).
Proof.
  assert (Hrej : fst (@init unreachable versions plugin fresh)
                 = Reject (DownloadError "https://github.com/mkcert" saved_binary))
    by (vm_compute; reflexivity).
  assert (Hthrown : fst (init broken fresh) = Reject (SourceError "ECONNRESET"))
    by (vm_compute; reflexivity).
  split; [exact Hrej|]. split; [|split; [exact Hthrown|]].
  - destruct (@init_failure_modes unreachable versions plugin fresh _ Hrej)
      as [(_ & _ & _ & Hconfig)|(sourceInfo & _ & _ & _ & Hconfig)];
      exact Hconfig.
  - destruct (init_failure_modes broken fresh _ Hthrown)
      as [(_ & Hdownloads & _)|(sourceInfo & Hsource & _)];
      [exact Hdownloads|discriminate Hsource].
Defined.

(** Without a binary the request is rejected by the generation command. *)
Lemma install_failure_modes_witness :
  fst (install plugin ["localhost"] fresh)
    = Reject
        (ExecError
           "undefined -install -key-file /app/node_modules/.mkcert/certs/dev.key -cert-file /app/node_modules/.mkcert/certs/dev.pem localhost")
  ∧ fst (exec_effect
           (command (binary_reference plugin (files fresh)) (JS.join " " ["localhost"]))
           (files fresh)) = Rejected.
Proof.
  assert (Hrej : fst (install plugin ["localhost"] fresh)
    = Reject
        (ExecError
           "undefined -install -key-file /app/node_modules/.mkcert/certs/dev.key -cert-file /app/node_modules/.mkcert/certs/dev.pem localhost"))
    by (vm_compute; reflexivity).
  split; [exact Hrej|].
  destruct (install_failure_modes plugin ["localhost"] fresh _ Hrej)
    as [[_ Hexec]|[[Hread _]|[Hread _]]]; [exact Hexec|discriminate..].
Defined.

(** The certificate answered for [localhost] is what the command wrote. *)
Lemma install_returns_disk_content_witness :
  fst (install plugin ["localhost"] installed) = Resolve localhost_certificate
  ∧ files (snd (install plugin ["localhost"] installed)) !! KEY_FILE_PATH
      = Some (key localhost_certificate).
Proof.
  assert (Hres : fst (install plugin ["localhost"] installed)
                 = Resolve localhost_certificate) by (vm_compute; reflexivity).
  split; [exact Hres|].
  exact (proj1 (install_returns_disk_content plugin ["localhost"] installed _ Hres)).
Defined.

(** With the binary installed the command succeeds and [localhost] is
    recorded. *)
Lemma regenerate_success_records_witness :
  exec_effect
    (command (binary_reference plugin (files installed)) (JS.join " " ["localhost"]))
    (files installed)
    = (Resolved,
       snd (run_command
              (command (binary_reference plugin (files installed))
                 (JS.join " " ["localhost"]))
              (files installed)))
  ∧ fst (regenerate plugin ["localhost"] installed) = Resolve tt.
Proof.
  assert (Hexec : exec_effect
    (command (binary_reference plugin (files installed)) (JS.join " " ["localhost"]))
    (files installed)
    = (Resolved,
       snd (run_command
              (command (binary_reference plugin (files installed))
                 (JS.join " " ["localhost"]))
              (files installed))))
    by (vm_compute; reflexivity).
  split; [exact Hexec|].
  exact (proj1 (regenerate_success_records plugin ["localhost"] installed _ Hexec)).
Defined.

(** On a fresh project [init] installs the binary, and [getMkcertBinnary]
    finds it. *)
Lemma init_provisions_binary_witness :
  JS.truthy (mkcertLocalPath plugin) = None
  ∧ binary_exists plugin (files fresh) = false
  ∧ getSourceInfo (source plugin)
      = Resolve (Some (mkSourceInfo "v1.4.4" "https://github.com/mkcert"))
  ∧ download_effect "https://github.com/mkcert" (mkcertSavedPath plugin) (files fresh)
      = (Resolved, {[ saved_binary := "ELF https://github.com/mkcert" ]})
  ∧ is_Some (({[ saved_binary := "ELF https://github.com/mkcert" ]} : gmap string string)
               !! mkcertSavedPath plugin)
  ∧ fst (getMkcertBinnary plugin (snd (init plugin fresh)))
      = Resolve (Some (mkcertSavedPath plugin)).
Proof.
  assert (Hmissing : binary_exists plugin (files fresh) = false)
    by (vm_compute; reflexivity).
  assert (Hdl : download_effect "https://github.com/mkcert" (mkcertSavedPath plugin)
                  (files fresh)
                = (Resolved, {[ saved_binary := "ELF https://github.com/mkcert" ]}))
    by (vm_compute; reflexivity).
  assert (Hfile : is_Some
            (({[ saved_binary := "ELF https://github.com/mkcert" ]} : gmap string string)
               !! mkcertSavedPath plugin))
    by (exists "ELF https://github.com/mkcert"; vm_compute; reflexivity).
  split; [reflexivity|]. split; [exact Hmissing|]. split; [reflexivity|].
  split; [exact Hdl|]. split; [exact Hfile|].
  pose proof (init_provisions_binary plugin fresh
                (mkSourceInfo "v1.4.4" "https://github.com/mkcert") _
                eq_refl Hmissing eq_refl Hdl Hfile) as (_ & _ & _ & Hbinary & _).
  exact Hbinary.
Defined.

(** The local path is configured and empty: the download goes to the
    managed path and [getMkcertBinnary] still answers nothing. *)
Lemma init_downloads_beside_local_path_witness :
  mkcertLocalPath local_github = Some "/usr/local/bin/mkcert"
  ∧ "/usr/local/bin/mkcert" ≠ EmptyString
  ∧ files fresh !! "/usr/local/bin/mkcert" = None
  ∧ getSourceInfo (source local_github)
      = Resolve (Some (mkSourceInfo "v1.4.4" "https://github.com/mkcert"))
  ∧ download_effect "https://github.com/mkcert" (mkcertSavedPath local_github)
      (files fresh)
      = (Resolved, {[ saved_binary := "ELF https://github.com/mkcert" ]})
  ∧ ({[ saved_binary := "ELF https://github.com/mkcert" ]} : gmap string string)
      !! "/usr/local/bin/mkcert" = None
  ∧ fst (getMkcertBinnary local_github (snd (init local_github fresh))) = Resolve None.
Proof.
  assert (Hdl : download_effect "https://github.com/mkcert"
                  (mkcertSavedPath local_github) (files fresh)
                = (Resolved, {[ saved_binary := "ELF https://github.com/mkcert" ]}))
    by (vm_compute; reflexivity).
  assert (Hstill :
    ({[ saved_binary := "ELF https://github.com/mkcert" ]} : gmap string string)
      !! "/usr/local/bin/mkcert" = None)
    by (vm_compute; reflexivity).
  split; [reflexivity|]. split; [discriminate|]. split; [reflexivity|].
  split; [reflexivity|]. split; [exact Hdl|]. split; [exact Hstill|].
  pose proof (init_downloads_beside_local_path local_github fresh
                "/usr/local/bin/mkcert"
                (mkSourceInfo "v1.4.4" "https://github.com/mkcert") _
                eq_refl ltac:(discriminate) eq_refl eq_refl Hdl Hstill)
    as (_ & _ & _ & Hbinary).
  exact Hbinary.
Defined.

(** Hosts given twice are asked for once. *)
Lemma plugin_config_unique_hosts_witness :
  https_truthy secure = true
  ∧ ∃ rest,
      trace (snd (plugin_config
                    (mkViteCertificateOptions
                       (Some ["localhost"; "127.0.0.1"; "localhost"])
                       (mkMkcertOptions None None None))
                    secure fresh)) = trace fresh ++ rest
      ∧ regenerations rest ≤ 1.
Proof.
  split; [reflexivity|].
  destruct (plugin_config_unique_hosts
              (mkViteCertificateOptions
                 (Some ["localhost"; "127.0.0.1"; "localhost"])
                 (mkMkcertOptions None None None))
              secure fresh eq_refl) as (rest & Htrace & Hr & _).
  exists rest. exact (conj Htrace Hr).
Defined.

(** No hosts: nothing is generated on a fresh project. *)
Lemma plugin_config_empty_hosts_witness :
  https_truthy secure = true
  ∧ vite_hosts (mkViteCertificateOptions (Some []) (mkMkcertOptions None None None))
      = Some []
  ∧ regenerations
      (trace (snd (plugin_config
                     (mkViteCertificateOptions (Some []) (mkMkcertOptions None None None))
                     secure fresh)))
    = regenerations (trace fresh).
Proof.
  split; [reflexivity|]. split; [reflexivity|].
  exact (proj1 (plugin_config_empty_hosts
                  (mkViteCertificateOptions (Some []) (mkMkcertOptions None None None))
                  secure fresh eq_refl eq_refl)).
Defined.

End MoreWitnesses.
